(** * The request proxy of the todo front end

    A shallow embedding of [frontend/app/api/proxy/[...path]/route.ts]:
    the path-rewriting rule chain, the construction of the outbound
    request and the translation of the backend's answer (or of its
    absence) into the response handed back to the caller.

    Strings are Rocq [string]s, one character per UTF-8 byte.  Every
    pattern the handler searches for is plain ASCII, and wherever the
    handler cuts a string by position ([slice(6)]) the characters cut
    are ASCII too, so byte positions and UTF-16 positions agree on
    everything the handler looks at. *)

From Stdlib Require Import String Ascii List Bool Arith ZArith Lia.
Import ListNotations.

Local Open Scope string_scope.
Local Open Scope bool_scope.

(** ** JavaScript string primitives used by the handler *)

Module JsString.

(** [s.startsWith(p)] *)
Fixpoint startsWith (s p : string) {struct p} : bool :=
  match p, s with
  | EmptyString, _ => true
  | String _ _, EmptyString => false
  | String a p', String b s' => Ascii.eqb a b && startsWith s' p'
  end.

(** [s.includes(p)] *)
Fixpoint includes (s p : string) : bool :=
  startsWith s p ||
  match s with
  | EmptyString => false
  | String _ rest => includes rest p
  end.

(** [s.slice(n)] for a non-negative [n] *)
Fixpoint slice (s : string) (n : nat) {struct n} : string :=
  match n, s with
  | O, _ => s
  | S _, EmptyString => EmptyString
  | S k, String _ rest => slice rest k
  end.

(** [s.replace(pat, rep)] with a string pattern: the first occurrence
    only.  The replacement texts of the handler hold no [$]. *)
Fixpoint replace (s pat rep : string) : string :=
  if startsWith s pat then rep ++ slice s (String.length pat)
  else match s with
       | EmptyString => EmptyString
       | String c rest => String c (replace rest pat rep)
       end.

(** [xs.join(sep)] *)
Definition join (xs : list string) (sep : string) : string :=
  String.concat sep xs.

(** Number of positions of [s] at which [p] starts. *)
Fixpoint occurrences (s p : string) : nat :=
  (if startsWith s p then 1 else 0) +
  match s with
  | EmptyString => 0
  | String _ rest => occurrences rest p
  end.

End JsString.

Import JsString.

(** ** The three regular expressions of the rule chain

    None carries a flag, so [^] and [$] are the two ends of the string
    and [\d] is an ASCII digit.  In each pattern a digit run [\d+] is
    followed by [/] or by the end of the string, neither of which is a
    digit: only the longest run can lead to a match, and the recognisers
    below read it greedily, left to right, as the pattern is written. *)

Module Regex.

Definition isDigit (c : ascii) : bool :=
  match c with
  | "0" | "1" | "2" | "3" | "4" | "5" | "6" | "7" | "8" | "9" => true
  | _ => false
  end%char.

Fixpoint allDigits (s : string) : bool :=
  match s with
  | EmptyString => true
  | String c rest => isDigit c && allDigits rest
  end.

(** The longest run of digits at the head of [s], and what follows. *)
Fixpoint spanDigits (s : string) : string * string :=
  match s with
  | EmptyString => (EmptyString, EmptyString)
  | String c rest =>
      if isDigit c
      then let (ds, tl) := spanDigits rest in (String c ds, tl)
      else (EmptyString, s)
  end.

(** A literal piece of a pattern: what is left of [s] after it. *)
Definition lit (p s : string) : option string :=
  if startsWith s p then Some (slice s (String.length p)) else None.

(** [\d+]: the digits read and what is left. *)
Definition digits1 (s : string) : option (string * string) :=
  match spanDigits s with
  | (EmptyString, _) => None
  | (ds, tl) => Some (ds, tl)
  end.

(** [$] *)
Definition atEnd (s : string) : bool :=
  match s with EmptyString => true | _ => false end.

(** [/^\/(\d+)\/chat$/] and [/^\/(\d+)\/new_conversation$/]: the text
    of group 1 when the whole string matches. *)
Definition execIdRoute (tail s : string) : option string :=
  match lit "/" s with
  | None => None
  | Some s1 =>
      match digits1 s1 with
      | None => None
      | Some (id, s2) =>
          match lit tail s2 with
          | None => None
          | Some s3 => if atEnd s3 then Some id else None
          end
      end
  end.

Definition execChat : string -> option string := execIdRoute "/chat".
Definition execNewConversation : string -> option string :=
  execIdRoute "/new_conversation".

(** [/^\/conversations\/\d+\/\d+$/] *)
Definition matchConversations (s : string) : bool :=
  match lit "/conversations/" s with
  | None => false
  | Some s1 =>
      match digits1 s1 with
      | None => false
      | Some (_, s2) =>
          match lit "/" s2 with
          | None => false
          | Some s3 =>
              match digits1 s3 with
              | None => false
              | Some (_, s4) => atEnd s4
              end
          end
      end
  end.

End Regex.

Import Regex.

(** ** The rule chain (route.ts, lines 29-69) *)

(** [`/${path.join("/")}`] *)
Definition initialPath (path : list string) : string :=
  "/" ++ join path "/".

(** The [if / else if] chain, first match wins. *)
Definition rewriteRules (p : string) : string :=
  match execChat p with
  | Some id => "/api/v1/" ++ id ++ "/chat"
  | None =>
  match execNewConversation p with
  | Some id => "/api/v1/" ++ id ++ "/new_conversation"
  | None =>
  if matchConversations p then "/api/v1" ++ p
  else if String.eqb p "/me" then "/api/v1/auth/me"
  else if startsWith p "/me/tasks" then "/api/v1" ++ p
  else if startsWith p "/tasks" then "/api/v1" ++ p
  else if startsWith p "/api/v1/" then "/api/v1" ++ slice p 6
  else if startsWith p "/api/" then replace p "/api/" "/api/v1/"
  else if negb (startsWith p "/api/v1/") then "/api/v1" ++ p
  else p
  end end.

Definition transformedPath (path : list string) : string :=
  rewriteRules (initialPath path).

(** The rule chain of the second proxy route among the sources
    (src/unnamed/part_001, lines 28-65): rule 5 strips [/me], and rule 7
    keeps a path that begins with [/api/v1/auth] as it is. *)

Module Part001.

Definition rewriteRules (p : string) : string :=
  match execChat p with
  | Some id => "/api/v1/" ++ id ++ "/chat"
  | None =>
  match execNewConversation p with
  | Some id => "/api/v1/" ++ id ++ "/new_conversation"
  | None =>
  if matchConversations p then "/api/v1" ++ p
  else if String.eqb p "/me" then "/api/v1/auth/me"
  else if startsWith p "/me/tasks"
       then "/api/v1/tasks" ++ replace p "/me/tasks" ""
  else if startsWith p "/tasks" then "/api/v1" ++ p
  else if startsWith p "/api/v1/auth" then p
  else if startsWith p "/api/" then replace p "/api/" "/api/v1/"
  else if negb (startsWith p "/api/v1/") then "/api/v1" ++ p
  else p
  end end.

End Part001.

(** ** JSON values as the handler sees them

    A number is kept as its canonical decimal text (what both
    [String(n)] and [JSON.stringify(n)] print); [0] and [-0] both print
    as ["0"].  An object is its list of fields, keys distinct, as
    [JSON.parse] builds it. *)

#[warnings="-register-all"]
Inductive JsonValue : Type :=
| JNull
| JBool (b : bool)
| JNum (shown : string)
| JStr (s : string)
| JArr (items : list JsonValue)
| JObj (fields : list (string * JsonValue)).

(** What a [throw] carries: an [Error] object with its [message], or any
    other value, kept as the text [String(value)] gives. *)
Inductive Thrown : Type :=
| ErrorObject (message : string)
| OtherValue (shown : string).

(** [e instanceof Error ? e.message : String(e)] *)
Definition describe (e : Thrown) : string :=
  match e with
  | ErrorObject message => message
  | OtherValue shown => shown
  end.

Module Js.

Fixpoint assoc (k : string) (fields : list (string * JsonValue))
  : option JsonValue :=
  match fields with
  | [] => None
  | (k', v) :: rest => if String.eqb k k' then Some v else assoc k rest
  end.

(** Truthiness, as [||] and [if] test it. *)
Definition truthy (v : JsonValue) : bool :=
  match v with
  | JNull => false
  | JBool b => b
  | JNum shown => negb (String.eqb shown "0")
  | JStr s => negb (String.eqb s "")
  | JArr _ | JObj _ => true
  end.

(** Truthiness of a value that is a string or [undefined] / [null]. *)
Definition truthyStr (v : option string) : bool :=
  match v with
  | Some s => negb (String.eqb s "")
  | None => false
  end.

(** [v.k] for a key [k] that no prototype defines ([detail],
    [message]): [None] is [undefined]; reading a property of [null]
    throws a [TypeError]. *)
Definition getProp (v : JsonValue) (k : string)
  : Thrown + option JsonValue :=
  match v with
  | JNull =>
      inl (ErrorObject
             ("Cannot read properties of null (reading '" ++ k ++ "')"))
  | JObj fields => inr (assoc k fields)
  | _ => inr None
  end.

(** [String(v)], which is what a template literal applies to [v].  An
    array prints its items separated by commas, [null] items as the
    empty text.  A plain object prints as [[object Object]] through
    [Object.prototype.toString]; an own field called [toString]
    shadows that method with a value that cannot be called, and the
    conversion throws a [TypeError]. *)
Fixpoint toString (v : JsonValue) : Thrown + string :=
  match v with
  | JNull => inr "null"
  | JBool true => inr "true"
  | JBool false => inr "false"
  | JNum shown => inr shown
  | JStr s => inr s
  | JArr items =>
      let item (x : JsonValue) : Thrown + string :=
        match x with
        | JNull => inr ""
        | _ => toString x
        end in
      (fix joinItems (l : list JsonValue) : Thrown + string :=
         match l with
         | [] => inr ""
         | x :: tl =>
             match item x with
             | inl e => inl e
             | inr sx =>
                 match tl with
                 | [] => inr sx
                 | _ :: _ =>
                     match joinItems tl with
                     | inl e => inl e
                     | inr stl => inr (sx ++ "," ++ stl)
                     end
                 end
             end
         end) items
  | JObj fields =>
      match assoc "toString" fields with
      | Some _ =>
          inl (ErrorObject "Cannot convert object to primitive value")
      | None => inr "[object Object]"
      end
  end.

End Js.

(** ** The handler's surroundings *)

(** [process.env]: the three variables the route reads. *)
Record Env : Type := {
  NODE_ENV : option string;
  API_BASE_URL : option string;
  NEXT_PUBLIC_API_BASE_URL : option string
}.

(** The session object of [@/lib/auth]; the route reads one field. *)
Record Session : Type := { accessToken : option string }.

(** The second argument of [fetch]. *)
Record RequestInit : Type := {
  init_method : string;
  init_headers : list (string * string);
  init_body : option string           (* [None] is [undefined] *)
}.

(** The backend's answer, body fully read. *)
Record BackendResponse : Type := {
  res_status : Z;
  res_content_type : option string;   (* [headers.get("content-type")] *)
  res_text : string
}.

(** [res.ok] *)
Definition res_ok (res : BackendResponse) : bool :=
  ((200 <=? res_status res) && (res_status res <=? 299))%Z.

Inductive FetchResult : Type :=
| Rejects (e : Thrown)
| Resolves (res : BackendResponse).

(** Everything outside the route that one run depends on.
    [getSessionServer] is imported from [@/lib/auth], which this
    development does not cover: its result for the request, [null] or a
    session, is taken as given.  [isoDate k] is the ISO text of the
    [k]-th [Date] the run builds.  [statusErrorMessage s] is the message
    of the error the runtime's [Response] constructor throws when it
    refuses the status [s]; its wording is the runtime's. *)
Record World : Type := {
  env : Env;
  session : option Session;
  network : string -> RequestInit -> FetchResult;
  isoDate : nat -> string;
  statusErrorMessage : Z -> string
}.

(** The inbound request: [req.method], [await req.text()] and
    [(await ctx.params).path]. *)
Record Request : Type := {
  req_method : string;
  req_text : string;
  req_path : list string
}.

(** A response, named after the call that builds it:
    [NextResponse.json(body, { status })] or
    [new NextResponse(text, { status })]. *)
Inductive Response : Type :=
| NextResponse_json (body : JsonValue) (status : Z)
| NextResponse_new (text : string) (status : Z).

(** ** Effects: the calls that leave the handler, and exceptions *)

Inductive Event : Type :=
| SessionLookup
| Fetch (url : string) (init : RequestInit).

Inductive Outcome (A : Type) : Type :=
| Returned (a : A)
| Threw (e : Thrown).

Arguments Returned {A} a.
Arguments Threw {A} e.

(** A computation: how it ends, and the calls it made, in order. *)
Definition Eff (A : Type) : Type := (Outcome A * list Event)%type.

Definition ret {A} (a : A) : Eff A := (Returned a, []).

Definition throw {A} (e : Thrown) : Eff A := (Threw e, []).

Definition emit (ev : Event) : Eff unit := (Returned tt, [ev]).

Definition bind {A B} (m : Eff A) (k : A -> Eff B) : Eff B :=
  match m with
  | (Returned a, log) => let (o, log') := k a in (o, (log ++ log')%list)
  | (Threw e, log) => (Threw e, log)
  end.

(** [try { m } catch (e) { h e }] *)
Definition tryCatch {A} (m : Eff A) (h : Thrown -> Eff A) : Eff A :=
  match m with
  | (Returned a, log) => (Returned a, log)
  | (Threw e, log) => let (o, log') := h e in (o, (log ++ log')%list)
  end.

(** A pure step that may throw. *)
Definition liftThrow {A} (r : Thrown + A) : Eff A :=
  match r with
  | inl e => throw e
  | inr a => ret a
  end.

Notation "x <- m ;; k" := (bind m (fun x => k))
  (at level 61, m at next level, right associativity).
Notation "m ;;; k" := (bind m (fun _ => k))
  (at level 61, right associativity).

Definition outcome {A} (m : Eff A) : Outcome A := fst m.
Definition calls {A} (m : Eff A) : list Event := snd m.

(** ** The [Response] constructor

    [NextResponse.json(body, { status })] and
    [new NextResponse(text, { status })] both run the [Response]
    constructor of the Fetch standard, which throws a [RangeError] for a
    status outside 200..599 and, when a body is given, a [TypeError] for
    the null-body statuses 101, 103, 204, 205 and 304.  Both calls always
    give a body (the empty text is one). *)

Definition statusOf (r : Response) : Z :=
  match r with
  | NextResponse_json _ status => status
  | NextResponse_new _ status => status
  end.

Definition nullBodyStatus (status : Z) : bool :=
  ((status =? 101) || (status =? 103) || (status =? 204) || (status =? 205)
   || (status =? 304))%Z.

Definition acceptsStatus (status : Z) : bool :=
  ((200 <=? status) && (status <=? 599))%Z && negb (nullBodyStatus status).

(** The call that builds the response [r]: it returns [r], or throws.
    The handlers also build responses with the literal statuses 200,
    500 and 503, which are accepted; those are written as plain
    values. *)
Definition construct (w : World) (r : Response) : Eff Response :=
  if acceptsStatus (statusOf r) then ret r
  else throw (ErrorObject (statusErrorMessage w (statusOf r))).

(** ** The route (route.ts)

    [console.log] calls are left out: they neither throw nor change what
    is returned or sent. *)

Section Route.

(** [JSON.parse]: [None] when it throws a [SyntaxError]. *)
Variable JSON_parse : string -> option JsonValue.

Variable w : World.

Definition isDevelopment : bool :=
  match NODE_ENV (env w) with
  | Some mode => negb (String.eqb mode "production")
  | None => true
  end.

Definition baseUrl : option string :=
  if Js.truthyStr (API_BASE_URL (env w)) then API_BASE_URL (env w)
  else if Js.truthyStr (NEXT_PUBLIC_API_BASE_URL (env w))
       then NEXT_PUBLIC_API_BASE_URL (env w)
       else None.

(** [await getSessionServer()] *)
Definition getSessionServer : Eff (option Session) :=
  emit SessionLookup ;;; ret (session w).

(** [await fetch(url, init)] *)
Definition fetch (url : string) (init : RequestInit) : Eff BackendResponse :=
  emit (Fetch url init) ;;;
  match network w url init with
  | Rejects e => throw e
  | Resolves res => ret res
  end.

(** [req.method === "GET" || req.method === "HEAD"] *)
Definition isGetOrHead (method : string) : bool :=
  String.eqb method "GET" || String.eqb method "HEAD".

(** Lines 24-27. *)
Definition requestBody (req : Request) : string :=
  if negb (String.eqb (req_method req) "GET")
     && negb (String.eqb (req_method req) "HEAD")
  then req_text req
  else "".

(** The object literal the three chat fallbacks share. *)
Definition chatShape (response : string) : JsonValue :=
  JObj [ ("conversation_id", JNum "1");
         ("response", JStr response);
         ("has_tools_executed", JBool false);
         ("tool_results", JArr []);
         ("message_id", JNull) ].

Definition mockTasks : JsonValue :=
  JArr [ JObj [ ("id", JNum "1");
                ("title", JStr "Sample Task");
                ("description", JStr "This is a sample task for testing");
                ("completed", JBool false);
                ("createdAt", JStr (isoDate w 0));
                ("updatedAt", JStr (isoDate w 1));
                ("ownerId", JNum "1");
                ("priority", JStr "medium");
                ("dueDate", JNull) ];
         JObj [ ("id", JNum "2");
                ("title", JStr "Another Sample Task");
                ("description", JStr "This is another sample task");
                ("completed", JBool false);
                ("createdAt", JStr (isoDate w 2));
                ("updatedAt", JStr (isoDate w 3));
                ("ownerId", JNum "1");
                ("priority", JStr "high");
                ("dueDate", JStr (isoDate w 4)) ] ].

Definition devChatMessage : string :=
  "I'm in development mode without a backend connection, but I can still help! I have limited functionality, but you can ask me about task management. What would you like to do?".

Definition networkChatMessage : string :=
  "I'm having trouble connecting to the backend, but I'm still here to help! I can assist you with your tasks. What would you like to do?".

Definition errorChatMessage (detail : string) : string :=
  "I encountered an issue processing your request. Error: " ++ detail ++
  ". But I'm still here to help! What would you like to do?".

(** Lines 71-81: the headers, after the session lookup when the path is
    not public. *)
Definition baseHeaders : list (string * string) :=
  [ ("Accept", "application/json"); ("Content-Type", "application/json") ].

Definition isPublicEndpoint (tp : string) : bool := includes tp "/auth".

(** [session?.accessToken] *)
Definition sessionToken (s : option Session) : option string :=
  match s with
  | Some s' => accessToken s'
  | None => None
  end.

(** [session?.accessToken || (isDevelopment() ? "mock-token" : null)] *)
Definition token (s : option Session) : option string :=
  if Js.truthyStr (sessionToken s) then sessionToken s
  else if isDevelopment then Some "mock-token" else None.

Definition withAuthorization (t : option string) : list (string * string) :=
  match t with
  | Some tok =>
      if Js.truthyStr t
      then (baseHeaders ++ [ ("Authorization", ("Bearer " ++ tok)%string) ])%list
      else baseHeaders
  | None => baseHeaders
  end.

Definition headers (tp : string) : Eff (list (string * string)) :=
  if negb (isPublicEndpoint tp) then
    s <- getSessionServer ;;
    ret (withAuthorization (token s))
  else ret baseHeaders.

(** Lines 189-194: [detail || message || errorText], or the raw text
    when [JSON.parse] or the property read throws. *)
Definition errorDetail (errorText : string) : JsonValue :=
  match JSON_parse errorText with
  | None => JStr errorText
  | Some errorJson =>
      match Js.getProp errorJson "detail" with
      | inl _ => JStr errorText
      | inr detail =>
          match detail with
          | Some d => if Js.truthy d then d else
              match Js.getProp errorJson "message" with
              | inr (Some m) => if Js.truthy m then m else JStr errorText
              | _ => JStr errorText
              end
          | None =>
              match Js.getProp errorJson "message" with
              | inr (Some m) => if Js.truthy m then m else JStr errorText
              | _ => JStr errorText
              end
          end
      end
  end.

(** Lines 86-129: no origin configured. *)
Definition notConfigured (tp : string) : Response :=
  if isDevelopment && includes tp "/tasks"
  then NextResponse_json (JObj [ ("items", mockTasks) ]) 200
  else if isDevelopment && includes tp "/chat"
  then NextResponse_json (chatShape devChatMessage) 200
  else NextResponse_json (JObj [ ("error", JStr "API backend not configured") ])
                         503.

(** Lines 142-186: the [catch] around [fetch]. *)
Definition onFetchError (tp : string) (fetchError : Thrown) : Eff Response :=
  if isDevelopment && includes tp "/tasks"
  then ret (NextResponse_json (JObj [ ("items", mockTasks) ]) 200)
  else if includes tp "/chat"
  then ret (NextResponse_json (chatShape networkChatMessage) 200)
  else throw (ErrorObject
                ("Failed to connect to backend: " ++ describe fetchError)).

(** Lines 188-209: a backend answer that is not [ok]. *)
Definition onBackendError (tp : string) (res : BackendResponse)
  : Eff Response :=
  let errorText := res_text res in
  let detail := errorDetail errorText in
  if includes tp "/chat" then
    shown <- liftThrow (Js.toString detail) ;;
    ret (NextResponse_json (chatShape (errorChatMessage shown)) 200)
  else construct w (NextResponse_json (JObj [ ("error", detail) ])
                                      (res_status res)).

(** Lines 211-218: an [ok] answer is passed through. *)
Definition onBackendSuccess (res : BackendResponse) : Eff Response :=
  let contentType :=
    match res_content_type res with
    | Some c => c
    | None => ""
    end in
  if includes contentType "application/json" then
    let json :=
      match JSON_parse (res_text res) with
      | Some j => j
      | None => JNull
      end in
    construct w (NextResponse_json json (res_status res))
  else construct w (NextResponse_new (res_text res) (res_status res)).

(** The outbound request of line 132. *)
Definition outboundInit (req : Request) (hs : list (string * string))
  : RequestInit :=
  {| init_method := req_method req;
     init_headers := hs;
     init_body := if isGetOrHead (req_method req) then None
                  else Some (requestBody req) |}.

(** The body of the outer [try]. *)
Definition handlerBody (req : Request) : Eff Response :=
  let tp := transformedPath (req_path req) in
  hs <- headers tp ;;
  match baseUrl with
  | None => ret (notConfigured tp)
  | Some apiBaseUrl =>
      r <- tryCatch
             (res <- fetch (apiBaseUrl ++ tp) (outboundInit req hs) ;;
              ret (inr res))
             (fun fetchError =>
                early <- onFetchError tp fetchError ;; ret (inl early)) ;;
      match r with
      | inl early => ret early
      | inr res =>
          if negb (res_ok res) then onBackendError tp res
          else onBackendSuccess res
      end
  end.

(** The outer [catch] (lines 219-224). *)
Definition proxyError (error : Thrown) : Response :=
  NextResponse_json
    (JObj [ ("message", JStr "Proxy error occurred");
            ("error", JStr (describe error)) ])
    500.

Definition handler (req : Request) : Eff Response :=
  tryCatch (handlerBody req) (fun error => ret (proxyError error)).

End Route.

(** ** Views of a run, and sample surroundings *)

Definition rewrittenPath (req : Request) : string :=
  transformedPath (req_path req).

(** The headers object by the time [fetch] is called. *)
Definition sentHeaders (w : World) (tp : string) : list (string * string) :=
  if negb (isPublicEndpoint tp)
  then withAuthorization (token w (session w))
  else baseHeaders.

(** The session lookups of a run. *)
Definition sessionCalls (tp : string) : list Event :=
  if negb (isPublicEndpoint tp) then [SessionLookup] else [].

(** The outbound requests of a run. *)
Definition fetchCalls (w : World) (req : Request) : list Event :=
  match baseUrl w with
  | None => []
  | Some apiBaseUrl =>
      [ Fetch (apiBaseUrl ++ rewrittenPath req)
              (outboundInit req (sentHeaders w (rewrittenPath req))) ]
  end.

(** [hs[name]] *)
Fixpoint headerValue (hs : list (string * string)) (name : string)
  : option string :=
  match hs with
  | [] => None
  | (k, v) :: rest => if String.eqb name k then Some v else headerValue rest name
  end.

Definition notConfiguredError : Response :=
  NextResponse_json (JObj [ ("error", JStr "API backend not configured") ]) 503.

(** A [JSON.parse] that knows the texts of a table. *)
Definition parseTable (table : list (string * JsonValue)) (text : string)
  : option JsonValue :=
  Js.assoc text table.

Definition quote : string := String "034"%char EmptyString.

(** The text [{"detail":"X"}], for a given [X] without escapes. *)
Definition detailText (x : string) : string :=
  "{" ++ quote ++ "detail" ++ quote ++ ":" ++ quote ++ x ++ quote ++ "}".

Definition sampleWorld (mode origin tok : option string) (answer : FetchResult)
  : World :=
  {| env := {| NODE_ENV := mode;
               API_BASE_URL := origin;
               NEXT_PUBLIC_API_BASE_URL := None |};
     session := match tok with
                | Some t => Some {| accessToken := Some t |}
                | None => None
                end;
     network := fun _ _ => answer;
     isoDate := fun _ => "2026-01-01T00:00:00.000Z";
     statusErrorMessage := fun _ => "Invalid response status code" |}.

Definition sampleRequest (method : string) (path : list string) : Request :=
  {| req_method := method;
     req_text := "{" ++ quote ++ "message" ++ quote ++ ":" ++ quote ++ "hi"
                 ++ quote ++ "}";
     req_path := path |}.

Definition jsonAnswer (status : Z) (text : string) : FetchResult :=
  Resolves {| res_status := status;
              res_content_type := Some "application/json";
              res_text := text |}.

Definition unreachable : FetchResult := Rejects (ErrorObject "fetch failed").

(** Development mode, no origin configured. *)
Definition offlineDevWorld : World :=
  sampleWorld None None None unreachable.

(** Development mode, origin configured, backend down. *)
Definition downDevWorld : World :=
  sampleWorld (Some "development") (Some "http://localhost:8000") None
              unreachable.

(** Production mode, origin configured, backend down. *)
Definition downProdWorld : World :=
  sampleWorld (Some "production") (Some "http://backend:8000") (Some "abc")
              unreachable.

(** Production mode, no origin configured. *)
Definition offlineProdWorld : World :=
  sampleWorld (Some "production") None None unreachable.

(** Production mode, origin configured, backend answering. *)
Definition liveWorld (tok : option string) (status : Z) (text : string)
  : World :=
  sampleWorld (Some "production") (Some "http://backend:8000") tok
              (jsonAnswer status text).

(** ** The second proxy route (src/unnamed/part_001, lines 1-138)

    [isDevelopment], [baseUrl], the request body, the headers, the
    reading of an error body and the handling of an [ok] answer are
    written as in route.ts and are shared with it.  The rule chain is
    [Part001.rewriteRules]; the route has no fallback payloads. *)

Module Part001Handler.

Section Route.

Variable JSON_parse : string -> option JsonValue.

Variable w : World.

Definition transformedPath (path : list string) : string :=
  Part001.rewriteRules (initialPath path).

(** Lines 82-84. *)
Definition notConfigured : Response :=
  NextResponse_json
    (JObj [ ("error",
             JStr "API backend not configured. Please set API_BASE_URL or NEXT_PUBLIC_API_BASE_URL environment variable.") ])
    503.

(** Lines 92-94: the [catch] around [fetch] always throws again. *)
Definition onFetchError (apiBaseUrl : string) (fetchError : Thrown)
  : Eff BackendResponse :=
  throw (ErrorObject
           ("Failed to connect to backend at " ++ apiBaseUrl ++ ": "
            ++ describe fetchError)).

(** Lines 96-116: a backend answer that is not [ok]. *)
Definition onBackendError (tp : string) (res : BackendResponse)
  : Eff Response :=
  let errorText := res_text res in
  let detail := errorDetail JSON_parse errorText in
  if includes tp "/chat" then
    shown <- liftThrow (Js.toString detail) ;;
    construct w (NextResponse_json
                   (chatShape ("Sorry, I encountered an error: " ++ shown))
                   (res_status res))
  else construct w (NextResponse_json (JObj [ ("error", detail) ])
                                      (res_status res)).

Definition handlerBody (req : Request) : Eff Response :=
  let tp := transformedPath (req_path req) in
  hs <- headers w tp ;;
  match baseUrl w with
  | None => ret notConfigured
  | Some apiBaseUrl =>
      res <- tryCatch
               (fetch w (apiBaseUrl ++ tp) (outboundInit req hs))
               (onFetchError apiBaseUrl) ;;
      if negb (res_ok res) then onBackendError tp res
      else onBackendSuccess JSON_parse w res
  end.

Definition handler (req : Request) : Eff Response :=
  tryCatch (handlerBody req) (fun error => ret (proxyError error)).

End Route.

End Part001Handler.

(** ** The client of the proxy ([apiFetch], src/unnamed/part_003) *)

Module ApiClient.

(** Lines 169-175 of [apiFetch]: the URL the browser calls. *)
Definition proxyPath (path : string) : string :=
  if startsWith path "/api/proxy/" then path
  else "/api/proxy" ++ (if startsWith path "/" then path else "/" ++ path).

End ApiClient.

(** ** The task list of the tasks page (tasksClient.tsx)

    The state updates that [createTask], [toggleComplete], [deleteTask]
    and [saveEdit] pass to [setTasks]. *)

Module TasksClient.

(** A task id is a number (from the backend) or a string (the
    temporary id of an optimistic entry). *)
Inductive TaskId : Type :=
| NumId (n : Z)
| StrId (s : string).

(** [a === b] *)
Definition sameId (a b : TaskId) : bool :=
  match a, b with
  | NumId n, NumId m => Z.eqb n m
  | StrId s, StrId t => String.eqb s t
  | _, _ => false
  end.

(** The fields of a task that the page reads or writes. *)
Record Task : Type := {
  id : TaskId;
  title : string;
  description : option string;
  dueDate : option string;
  priority : option string;
  completed : bool;
  ownerId : Z;
  createdAt : option string;
  updatedAt : option string
}.

(** [{ ...t, completed: nextCompleted }] *)
Definition withCompleted (t : Task) (nextCompleted : bool) : Task :=
  {| id := id t;
     title := title t;
     description := description t;
     dueDate := dueDate t;
     priority := priority t;
     completed := nextCompleted;
     ownerId := ownerId t;
     createdAt := createdAt t;
     updatedAt := updatedAt t |}.

(** [createTask], line 164: [(prev) => [optimistic, ...prev]] *)
Definition addOptimistic (optimistic : Task) (prev : list Task) : list Task :=
  optimistic :: prev.

(** Lines 171, 192 and 226:
    [(list) => list.map((t) => (t.id === taskId ? updated : t))] *)
Definition replaceTask (taskId : TaskId) (updated : Task) (tasks : list Task)
  : list Task :=
  map (fun t => if sameId (id t) taskId then updated else t) tasks.

(** Lines 174 and 201:
    [(list) => list.filter((t) => t.id !== taskId)] *)
Definition removeTask (taskId : TaskId) (tasks : list Task) : list Task :=
  filter (fun t => negb (sameId (id t) taskId)) tasks.

(** [toggleComplete], lines 181-185. *)
Definition markCompleted (taskId : TaskId) (nextCompleted : bool)
    (tasks : list Task) : list Task :=
  map (fun t => if sameId (id t) taskId then withCompleted t nextCompleted
                else t) tasks.

(** No task of the list has this id. *)
Definition fresh (taskId : TaskId) (tasks : list Task) : Prop :=
  Forall (fun t => sameId (id t) taskId = false) tasks.

(** An optimistic entry, as [createTask] builds it (lines 154-162). *)
Definition optimisticTask (tmpId title : string) : Task :=
  {| id := StrId tmpId;
     title := title;
     description := None;
     dueDate := None;
     priority := None;
     completed := false;
     ownerId := 0;
     createdAt := None;
     updatedAt := None |}.

(** A task as the backend returns it. *)
Definition storedTask (n : Z) (title : string) (done : bool) : Task :=
  {| id := NumId n;
     title := title;
     description := None;
     dueDate := None;
     priority := None;
     completed := done;
     ownerId := 1;
     createdAt := None;
     updatedAt := None |}.

End TasksClient.

(** * Properties *)

(** ** Strings *)

Section StringFacts.

Lemma startsWith_append (p s : string) : startsWith (p ++ s) p = true.
Proof.
  induction p as [|c p IH]; simpl; [reflexivity|].
  now rewrite Ascii.eqb_refl, IH.
Qed.

Lemma slice_append (p s : string) : slice (p ++ s) (String.length p) = s.
Proof.
  induction p as [|c p IH]; simpl; [now destruct s | exact IH].
Qed.

Lemma append_empty_r (s : string) : s ++ "" = s.
Proof. induction s; simpl; congruence. Qed.

Lemma includes_here (s p : string) :
  startsWith s p = true -> includes s p = true.
Proof. intros H; destruct s; simpl in *; now rewrite H. Qed.

Lemma includes_skip (a s p : string) :
  includes s p = true -> includes (a ++ s) p = true.
Proof.
  induction a as [|c a IH]; simpl; intros H; [exact H|].
  rewrite (IH H). apply orb_true_r.
Qed.

Lemma includes_middle (a x b : string) : includes (a ++ x ++ b) x = true.
Proof. apply includes_skip, includes_here, startsWith_append. Qed.

Lemma startsWith_split (s p : string) :
  startsWith s p = true -> s = p ++ slice s (String.length p).
Proof.
  revert s. induction p as [|a p IH]; intros s H; [reflexivity|].
  destruct s as [|b s]; [discriminate H|].
  simpl in H. apply andb_true_iff in H as [Hab Hp].
  apply Ascii.eqb_eq in Hab as ->. simpl. f_equal. now apply IH.
Qed.

Lemma includes_sound (s p : string) :
  includes s p = true -> exists a b : string, s = a ++ p ++ b.
Proof.
  induction s as [|c s IH]; simpl; intros H.
  - rewrite orb_false_r in H. destruct p; [|discriminate H].
    now exists "", "".
  - apply orb_true_iff in H as [H|H].
    + exists "", (slice (String c s) (String.length p)).
      now apply startsWith_split.
    + destruct (IH H) as (a & b & ->). now exists (String c a), b.
Qed.

(** [s.includes(p)] holds exactly when [p] occurs somewhere in [s]. *)
Lemma includes_spec (s p : string) :
  includes s p = true <-> exists a b : string, s = a ++ p ++ b.
Proof.
  split; [apply includes_sound|].
  intros (a & b & ->). apply includes_middle.
Qed.

Lemma replace_unfold (s pat rep : string) :
  replace s pat rep =
  if startsWith s pat then rep ++ slice s (String.length pat)
  else match s with
       | EmptyString => EmptyString
       | String c rest => String c (replace rest pat rep)
       end.
Proof. now destruct s. Qed.

Lemma startsWith_head_differs (c d : ascii) (p s : string) :
  c <> d -> startsWith (String d s) (String c p) = false.
Proof.
  intros ne; simpl. destruct (Ascii.eqb_spec c d); [contradiction|reflexivity].
Qed.

Lemma occurrences_cons (c : ascii) (s p : string) :
  occurrences (String c s) p =
  (if startsWith (String c s) p then 1 else 0) + occurrences s p.
Proof. reflexivity. Qed.

End StringFacts.

(** ** Digit runs *)

Lemma digit_not_slash (c : ascii) : isDigit c = true -> c <> "/"%char.
Proof. intros H ->. discriminate H. Qed.

Lemma spanDigits_append (n t : string) :
  allDigits n = true ->
  match t with
  | EmptyString => True
  | String c _ => isDigit c = false
  end ->
  spanDigits (n ++ t) = (n, t).
Proof.
  intros Hn Ht. induction n as [|c n IH]; simpl in *.
  - destruct t as [|d t]; [reflexivity|]. simpl. now rewrite Ht.
  - apply andb_true_iff in Hn as [Hc Hn].
    now rewrite Hc, (IH Hn).
Qed.

Lemma lit_append (p s : string) : lit p (p ++ s) = Some s.
Proof. unfold lit. now rewrite startsWith_append, slice_append. Qed.

Lemma lit_self (p : string) : lit p p = Some "".
Proof.
  pose proof (lit_append p "") as H. now rewrite append_empty_r in H.
Qed.

Lemma execIdRoute_digits (tail n : string) :
  n <> "" -> allDigits n = true ->
  execIdRoute (String "/" tail) ("/" ++ n ++ String "/" tail) = Some n.
Proof.
  intros Hne Hn. unfold execIdRoute.
  rewrite (lit_append "/" (n ++ String "/" tail)).
  unfold digits1.
  rewrite (spanDigits_append n (String "/" tail) Hn eq_refl).
  destruct n as [|c n]; [now elim Hne|].
  now rewrite lit_self.
Qed.

(** The recognisers accept exactly the language of their pattern. *)

Lemma lit_sound (p s r : string) : lit p s = Some r -> s = p ++ r.
Proof.
  unfold lit. destruct (startsWith s p) eqn:H; [|discriminate].
  intros [= <-]. now apply startsWith_split.
Qed.

Lemma spanDigits_sound (s : string) :
  s = fst (spanDigits s) ++ snd (spanDigits s) /\
  allDigits (fst (spanDigits s)) = true.
Proof.
  induction s as [|c s [IH1 IH2]]; simpl; [now split|].
  destruct (isDigit c) eqn:Hc; [|now split].
  destruct (spanDigits s) as [ds tl]. simpl in *. split.
  - now f_equal.
  - now rewrite Hc.
Qed.

Lemma digits1_sound (s ds tl : string) :
  digits1 s = Some (ds, tl) ->
  s = ds ++ tl /\ allDigits ds = true /\ ds <> "".
Proof.
  unfold digits1. pose proof (spanDigits_sound s) as [H1 H2].
  destruct (spanDigits s) as [d t]. simpl in *.
  destruct d as [|c d]; [discriminate|].
  intros [= <- <-]. repeat split; [exact H1 | exact H2 | discriminate].
Qed.

Lemma atEnd_sound (s : string) : atEnd s = true -> s = "".
Proof. now destruct s. Qed.

Lemma execIdRoute_sound (tail s id : string) :
  execIdRoute tail s = Some id ->
  s = "/" ++ id ++ tail /\ allDigits id = true /\ id <> "".
Proof.
  unfold execIdRoute.
  destruct (lit "/" s) as [s1|] eqn:H1; [|discriminate].
  destruct (digits1 s1) as [[ds s2]|] eqn:H2; [|discriminate].
  destruct (lit tail s2) as [s3|] eqn:H3; [|discriminate].
  destruct (atEnd s3) eqn:H4; [|discriminate].
  intros [= <-].
  apply lit_sound in H1, H3. apply atEnd_sound in H4.
  apply digits1_sound in H2 as (H2 & Hd & Hne).
  subst s3. rewrite append_empty_r in H3. subst s2 s1.
  now repeat split.
Qed.

(** [/^\/(\d+)\/chat$/] and its sibling: a match is a slash, a non-empty
    run of digits (group 1), and the tail. *)
Lemma execIdRoute_spec (tail s id : string) :
  execIdRoute (String "/" tail) s = Some id <->
  s = "/" ++ id ++ String "/" tail /\ allDigits id = true /\ id <> "".
Proof.
  split.
  - apply execIdRoute_sound.
  - intros (-> & Hd & Hne). now apply execIdRoute_digits.
Qed.

(** [/^\/conversations\/\d+\/\d+$/] *)
Lemma matchConversations_spec (s : string) :
  matchConversations s = true <->
  exists a b : string,
    s = "/conversations/" ++ a ++ "/" ++ b /\
    allDigits a = true /\ a <> "" /\ allDigits b = true /\ b <> "".
Proof.
  unfold matchConversations. split.
  - destruct (lit "/conversations/" s) as [s1|] eqn:H1; [|discriminate].
    destruct (digits1 s1) as [[a s2]|] eqn:H2; [|discriminate].
    destruct (lit "/" s2) as [s3|] eqn:H3; [|discriminate].
    destruct (digits1 s3) as [[b s4]|] eqn:H4; [|discriminate].
    intros H5. apply atEnd_sound in H5.
    apply lit_sound in H1, H3.
    apply digits1_sound in H2 as (H2 & Ha & Hane).
    apply digits1_sound in H4 as (H4 & Hb & Hbne).
    subst s4. rewrite append_empty_r in H4. subst s3 s2 s1.
    exists a, b. now repeat split.
  - intros (a & b & -> & Ha & Hane & Hb & Hbne).
    rewrite (lit_append "/conversations/" (a ++ "/" ++ b)).
    unfold digits1 at 1.
    rewrite (spanDigits_append a ("/" ++ b) Ha eq_refl).
    destruct a as [|ca a]; [now elim Hane|].
    rewrite (lit_append "/" b). unfold digits1.
    pose proof (spanDigits_append b "" Hb I) as E.
    rewrite append_empty_r in E. rewrite E.
    destruct b as [|cb b]; [now elim Hbne | reflexivity].
Qed.

(** ** The rule chain *)

Lemma occurrences_digits (n t : string) :
  allDigits n = true ->
  occurrences (n ++ t) "/api/v1" = occurrences t "/api/v1".
Proof.
  induction n as [|c n IH]; intros Hn; [reflexivity|].
  simpl in Hn. apply andb_true_iff in Hn as [Hc Hn].
  change (String c n ++ t) with (String c (n ++ t)).
  rewrite occurrences_cons, startsWith_head_differs, (IH Hn); [reflexivity|].
  intros e. symmetry in e. now apply digit_not_slash in Hc.
Qed.

Lemma occurrences_slash_digits (n : string) :
  allDigits n = true ->
  occurrences (String "/" (n ++ "/chat")) "/api/v1" = 0.
Proof.
  intros Hn. rewrite occurrences_cons, (occurrences_digits n "/chat" Hn).
  destruct n as [|c n]; [reflexivity|].
  simpl in Hn. apply andb_true_iff in Hn as [Hc _].
  change (String c n ++ "/chat") with (String c (n ++ "/chat")).
  cbn [startsWith].
  destruct (Ascii.eqb_spec "a" c) as [<-|_]; [discriminate Hc | reflexivity].
Qed.

(** Whatever follows [/api/v1/], rule 7 cuts six characters and puts
    seven back. *)
Lemma rewriteRules_api_v1 (rest : string) :
  rewriteRules ("/api/v1/" ++ rest) = "/api/v11/" ++ rest.
Proof. reflexivity. Qed.

Example rewrite_chat : transformedPath ["42"; "chat"] = "/api/v1/42/chat".
Proof. reflexivity. Qed.

Example rewrite_new_conversation :
  transformedPath ["7"; "new_conversation"] = "/api/v1/7/new_conversation".
Proof. reflexivity. Qed.

Example rewrite_conversations :
  transformedPath ["conversations"; "1"; "22"] = "/api/v1/conversations/1/22".
Proof. reflexivity. Qed.

Example rewrite_conversations_letters :
  transformedPath ["conversations"; "1"; "x"] = "/api/v1/conversations/1/x".
Proof. reflexivity. Qed.

Example rewrite_me : transformedPath ["me"] = "/api/v1/auth/me".
Proof. reflexivity. Qed.

Example rewrite_me_tasks :
  transformedPath ["me"; "tasks"; "3"] = "/api/v1/me/tasks/3".
Proof. reflexivity. Qed.

Example rewrite_tasks : transformedPath ["tasks"; "3"] = "/api/v1/tasks/3".
Proof. reflexivity. Qed.

Example rewrite_api :
  transformedPath ["api"; "auth"; "login"] = "/api/v1/auth/login".
Proof. reflexivity. Qed.

Example rewrite_default : transformedPath ["users"] = "/api/v1/users".
Proof. reflexivity. Qed.

Example rewrite_chat_letters : transformedPath ["4x"; "chat"] = "/api/v1/4x/chat".
Proof. reflexivity. Qed.

(** The second route leaves [/api/v1/auth...] alone. *)
Lemma part001_keeps_api_v1_auth (rest : string) :
  Part001.rewriteRules ("/api/v1/auth" ++ rest) = "/api/v1/auth" ++ rest.
Proof. reflexivity. Qed.

Example part001_me_tasks :
  Part001.rewriteRules "/me/tasks/3" = "/api/v1/tasks/3".
Proof. reflexivity. Qed.

(** C1 (what the code does): the inbound path [/api/v1/tasks] is
    caught by rule 7, whose [slice(6)] leaves the [1] of [v1] in place
    before [/api/v1] is put back: the rewritten path is
    [/api/v11/tasks], and so differs from [/api/v1/tasks]. *)
Theorem api_v1_tasks_rewritten :
  initialPath ["api"; "v1"; "tasks"] = "/api/v1/tasks" /\
  transformedPath ["api"; "v1"; "tasks"] = "/api/v11/tasks" /\
  transformedPath ["api"; "v1"; "tasks"] <> "/api/v1/tasks".
Proof. repeat split. discriminate. Qed.

(** C2 (what the code does): every path that begins with
    [/api/v1/auth] is rewritten by rule 7 to [/api/v11/auth...], hence
    changed; and no path that begins with [/api/v1/] comes out beginning
    with [/api/v1/api/v1/]. *)
Theorem api_v1_auth_rewritten :
  (forall rest : string,
     rewriteRules ("/api/v1/auth" ++ rest) = "/api/v11/auth" ++ rest /\
     rewriteRules ("/api/v1/auth" ++ rest) <> "/api/v1/auth" ++ rest) /\
  transformedPath ["api"; "v1"; "auth"; "login"] = "/api/v11/auth/login" /\
  (forall rest : string,
     startsWith (rewriteRules ("/api/v1/" ++ rest)) "/api/v1/api/v1/" = false).
Proof. repeat split. discriminate. Qed.

(** C3: when the inbound path is [/n/chat] with [n] a non-empty run of
    digits, the rewritten path is [/api/v1/n/chat], in which [/api/v1]
    occurs exactly once. *)
Theorem chat_route_prefixed_once (path : list string) (n : string) :
  n <> "" ->
  allDigits n = true ->
  initialPath path = "/" ++ n ++ "/chat" ->
  transformedPath path = "/api/v1/" ++ n ++ "/chat" /\
  occurrences (transformedPath path) "/api/v1" = 1.
Proof.
  intros Hne Hn Hp. unfold transformedPath. rewrite Hp.
  assert (E : rewriteRules ("/" ++ n ++ "/chat") = "/api/v1/" ++ n ++ "/chat").
  { unfold rewriteRules, execChat.
    now rewrite (execIdRoute_digits "chat" n Hne Hn). }
  rewrite E. split; [reflexivity|].
  change ("/api/v1/" ++ n ++ "/chat")
    with (String "/" (String "a" (String "p" (String "i" (String "/"
            (String "v" (String "1" (String "/" (n ++ "/chat"))))))))).
  do 7 rewrite occurrences_cons.
  cbn [startsWith Ascii.eqb Bool.eqb andb Nat.add].
  now rewrite (occurrences_slash_digits n Hn).
Qed.

Lemma chat_route_prefixed_once_witness :
  transformedPath ["42"; "chat"] = "/api/v1/" ++ "42" ++ "/chat" /\
  occurrences (transformedPath ["42"; "chat"]) "/api/v1" = 1.
Proof.
  apply (chat_route_prefixed_once ["42"; "chat"] "42");
    [discriminate | reflexivity | reflexivity].
Defined.

Lemma rewriteRules_prefixed (p : string) :
  startsWith (rewriteRules p) "/api/v1" = true.
Proof.
  unfold rewriteRules.
  destruct (execChat p); [reflexivity|].
  destruct (execNewConversation p); [reflexivity|].
  destruct (matchConversations p); [reflexivity|].
  destruct (String.eqb p "/me"); [reflexivity|].
  destruct (startsWith p "/me/tasks"); [reflexivity|].
  destruct (startsWith p "/tasks"); [reflexivity|].
  destruct (startsWith p "/api/v1/"); [reflexivity|].
  destruct (startsWith p "/api/") eqn:Hapi; [|reflexivity].
  rewrite replace_unfold, Hapi. reflexivity.
Qed.

(** C10: whatever the segment list (empty or not), the rewritten path
    begins with [/api/v1]. *)
Theorem rewritten_path_begins_with_api_v1 (path : list string) :
  startsWith (transformedPath path) "/api/v1" = true.
Proof. apply rewriteRules_prefixed. Qed.

(** ** Runs of the handler *)

Section Runs.

Variable JSON_parse : string -> option JsonValue.
Variable w : World.
Variable req : Request.

Let tp := rewrittenPath req.

Lemma headers_run :
  headers w tp = (Returned (sentHeaders w tp), sessionCalls tp).
Proof.
  unfold headers, sentHeaders, sessionCalls.
  now destruct (isPublicEndpoint tp).
Qed.

Lemma handlerBody_unfold :
  handlerBody JSON_parse w req =
  (hs <- headers w tp ;;
   match baseUrl w with
   | None => ret (notConfigured w tp)
   | Some apiBaseUrl =>
       r <- tryCatch
              (res <- fetch w (apiBaseUrl ++ tp) (outboundInit req hs) ;;
               ret (inr res))
              (fun fetchError =>
                 early <- onFetchError w tp fetchError ;; ret (inl early)) ;;
       match r with
       | inl early => ret early
       | inr res =>
           if negb (res_ok res) then onBackendError JSON_parse w tp res
           else onBackendSuccess JSON_parse w res
       end
   end).
Proof. reflexivity. Qed.

Ltac step := cbv beta iota delta [bind ret tryCatch fetch emit throw].
Ltac settle := step; simpl; rewrite ?app_nil_r; reflexivity.

(** No origin: the answer is [notConfigured], and nothing is sent. *)
Lemma run_not_configured :
  baseUrl w = None ->
  handler JSON_parse w req = (Returned (notConfigured w tp), sessionCalls tp).
Proof.
  intros Hb. unfold handler. rewrite handlerBody_unfold, headers_run, Hb.
  unfold bind, ret, tryCatch. settle.
Qed.

(** [fetch] throws: the answer is decided by [onFetchError]. *)
Lemma run_fetch_rejects (apiBaseUrl : string) (e : Thrown) :
  baseUrl w = Some apiBaseUrl ->
  network w (apiBaseUrl ++ tp) (outboundInit req (sentHeaders w tp))
    = Rejects e ->
  handler JSON_parse w req =
  (Returned (match onFetchError w tp e with
             | (Returned r, _) => r
             | (Threw e', _) => proxyError e'
             end),
   (sessionCalls tp ++ fetchCalls w req)%list).
Proof.
  intros Hb Hn. unfold handler, fetchCalls. fold tp.
  rewrite handlerBody_unfold, headers_run, Hb.
  step. rewrite Hn. step.
  unfold onFetchError, ret, throw.
  destruct (isDevelopment w && includes tp "/tasks"); [settle|].
  destruct (includes tp "/chat"); settle.
Qed.

(** The backend answers: the answer is decided by [onBackendError] or
    [onBackendSuccess]. *)
Lemma run_fetch_resolves (apiBaseUrl : string) (res : BackendResponse) :
  baseUrl w = Some apiBaseUrl ->
  network w (apiBaseUrl ++ tp) (outboundInit req (sentHeaders w tp))
    = Resolves res ->
  handler JSON_parse w req =
  (Returned (if negb (res_ok res)
             then match onBackendError JSON_parse w tp res with
                  | (Returned r, _) => r
                  | (Threw e', _) => proxyError e'
                  end
             else match onBackendSuccess JSON_parse w res with
                  | (Returned r, _) => r
                  | (Threw e', _) => proxyError e'
                  end),
   (sessionCalls tp ++ fetchCalls w req)%list).
Proof.
  intros Hb Hn. unfold handler, fetchCalls. fold tp.
  rewrite handlerBody_unfold, headers_run, Hb.
  step. rewrite Hn. step.
  destruct (negb (res_ok res)).
  - unfold onBackendError, construct, bind, ret, liftThrow, throw.
    destruct (includes tp "/chat").
    + destruct (Js.toString (errorDetail JSON_parse (res_text res))); settle.
    + destruct (acceptsStatus _); settle.
  - unfold onBackendSuccess, construct, ret, throw.
    destruct (includes _ "application/json");
      destruct (acceptsStatus _); settle.
Qed.

(** The handler always returns, and its calls are the session lookup
    (when the path is not public) followed by at most one [fetch]. *)
Lemma handler_run :
  exists r : Response,
    handler JSON_parse w req =
    (Returned r, (sessionCalls tp ++ fetchCalls w req)%list).
Proof.
  destruct (baseUrl w) as [u|] eqn:Hb.
  - destruct (network w (u ++ tp) (outboundInit req (sentHeaders w tp)))
      as [e|res] eqn:Hn.
    + eexists. apply (run_fetch_rejects u e Hb Hn).
    + eexists. apply (run_fetch_resolves u res Hb Hn).
  - exists (notConfigured w tp). rewrite (run_not_configured Hb).
    unfold fetchCalls. now rewrite Hb, app_nil_r.
Qed.

Lemma fetch_in_calls (url : string) (init : RequestInit) :
  In (Fetch url init) (calls (handler JSON_parse w req)) ->
  exists apiBaseUrl,
    baseUrl w = Some apiBaseUrl /\
    url = apiBaseUrl ++ tp /\
    init = outboundInit req (sentHeaders w tp).
Proof.
  destruct handler_run as [r ->]. unfold calls, snd.
  rewrite in_app_iff. intros [H|H].
  - unfold sessionCalls in H.
    destruct (negb (isPublicEndpoint tp)); simpl in H;
      [destruct H as [H|[]]; discriminate H | destruct H].
  - unfold fetchCalls in H. fold tp in H.
    destruct (baseUrl w) as [u|]; [|destruct H].
    destruct H as [H|[]]. injection H as <- <-. now exists u.
Qed.

End Runs.


Lemma baseUrl_absent (w : World) :
  API_BASE_URL (env w) = None ->
  NEXT_PUBLIC_API_BASE_URL (env w) = None ->
  baseUrl w = None.
Proof. unfold baseUrl. now intros -> ->. Qed.

(** ** The backend answers with an error *)



Example chat_backend_error_run :
  outcome (handler (parseTable [ (detailText "X", JObj [ ("detail", JStr "X") ]) ])
                   (liveWorld (Some "abc") 500 (detailText "X"))
                   (sampleRequest "POST" ["1"; "chat"]))
  = Returned (NextResponse_json
                (chatShape "I encountered an issue processing your request. Error: X. But I'm still here to help! What would you like to do?")
                200).
Proof. reflexivity. Qed.

Lemma errorDetail_unparsed (JSON_parse : string -> option JsonValue)
    (errorText : string) :
  JSON_parse errorText = None ->
  errorDetail JSON_parse errorText = JStr errorText.
Proof. unfold errorDetail. now intros ->. Qed.

Lemma errorDetail_detail (JSON_parse : string -> option JsonValue)
    (errorText : string) (fields : list (string * JsonValue)) (d : JsonValue) :
  JSON_parse errorText = Some (JObj fields) ->
  Js.assoc "detail" fields = Some d ->
  Js.truthy d = true ->
  errorDetail JSON_parse errorText = d.
Proof.
  unfold errorDetail. intros -> Hd Ht. cbn [Js.getProp]. now rewrite Hd, Ht.
Qed.

Lemma errorDetail_message (JSON_parse : string -> option JsonValue)
    (errorText : string) (fields : list (string * JsonValue)) (m : JsonValue) :
  JSON_parse errorText = Some (JObj fields) ->
  (forall d, Js.assoc "detail" fields = Some d -> Js.truthy d = false) ->
  Js.assoc "message" fields = Some m ->
  Js.truthy m = true ->
  errorDetail JSON_parse errorText = m.
Proof.
  unfold errorDetail. intros -> Hd Hm Ht. cbn [Js.getProp].
  destruct (Js.assoc "detail" fields) as [d|].
  - now rewrite (Hd d eq_refl), Hm, Ht.
  - now rewrite Hm, Ht.
Qed.

Lemma errorDetail_neither (JSON_parse : string -> option JsonValue)
    (errorText : string) (fields : list (string * JsonValue)) :
  JSON_parse errorText = Some (JObj fields) ->
  (forall d, Js.assoc "detail" fields = Some d -> Js.truthy d = false) ->
  (forall m, Js.assoc "message" fields = Some m -> Js.truthy m = false) ->
  errorDetail JSON_parse errorText = JStr errorText.
Proof.
  unfold errorDetail. intros -> Hd Hm. cbn [Js.getProp].
  destruct (Js.assoc "detail" fields) as [d|];
    [rewrite (Hd d eq_refl)|];
    (destruct (Js.assoc "message" fields) as [m|];
     [now rewrite (Hm m eq_refl) | reflexivity]).
Qed.

Lemma literal_statuses_accepted :
  acceptsStatus 200 = true /\ acceptsStatus 500 = true /\
  acceptsStatus 503 = true.
Proof. repeat split. Qed.

(** Among the statuses that are not [ok], the constructor accepts
    300..599 without 304. *)
Lemma accepted_error_statuses (res : BackendResponse) :
  res_ok res = false ->
  (acceptsStatus (res_status res) = true <->
   (300 <= res_status res <= 599 /\ res_status res <> 304)%Z).
Proof.
  unfold res_ok, acceptsStatus, nullBodyStatus. intros Hok.
  rewrite !andb_true_iff, negb_true_iff, !orb_false_iff,
          !Z.leb_le, !Z.eqb_neq.
  apply andb_false_iff in Hok. rewrite !Z.leb_gt in Hok. lia.
Qed.

(** C5 as stated fails: a status that is not [ok] may be one the
    [Response] constructor refuses.  For a 304 answer on [/tasks] the
    call [NextResponse.json({ error }, { status: 304 })] throws inside
    the outer [try], and the handler answers 500 with the proxy error
    object. *)
Lemma not_modified_answered_with_500 :
  baseUrl (liveWorld (Some "abc") 304 "") = Some "http://backend:8000" /\
  network (liveWorld (Some "abc") 304 "")
          ("http://backend:8000" ++ rewrittenPath (sampleRequest "GET" ["tasks"]))
          (outboundInit (sampleRequest "GET" ["tasks"])
             (sentHeaders (liveWorld (Some "abc") 304 "")
                (rewrittenPath (sampleRequest "GET" ["tasks"]))))
  = jsonAnswer 304 "" /\
  res_ok {| res_status := 304;
            res_content_type := Some "application/json";
            res_text := "" |} = false /\
  includes (rewrittenPath (sampleRequest "GET" ["tasks"])) "/chat" = false /\
  outcome (handler (parseTable []) (liveWorld (Some "abc") 304 "")
                   (sampleRequest "GET" ["tasks"]))
  = Returned (NextResponse_json
                (JObj [ ("message", JStr "Proxy error occurred");
                        ("error", JStr "Invalid response status code") ])
                500) /\
  outcome (handler (parseTable []) (liveWorld (Some "abc") 304 "")
                   (sampleRequest "GET" ["tasks"]))
  <> Returned (NextResponse_json
                 (JObj [ ("error", errorDetail (parseTable []) "") ]) 304).
Proof. repeat split. discriminate. Qed.

(** C5, amended: the backend answers, not [ok], with a status the
    [Response] constructor accepts (300..599 without 304), and the
    rewritten path does not contain [/chat]: the handler returns the
    backend's status with the body [{ error: errorDetail }], where
    [errorDetail] is the raw text when it does not parse, the truthy
    [detail] field of the parsed object, else its truthy [message]
    field, else the raw text. *)
Theorem backend_error_status_preserved
    (JSON_parse : string -> option JsonValue) (w : World) (req : Request)
    (apiBaseUrl : string) (res : BackendResponse) :
  baseUrl w = Some apiBaseUrl ->
  network w (apiBaseUrl ++ rewrittenPath req)
            (outboundInit req (sentHeaders w (rewrittenPath req)))
    = Resolves res ->
  res_ok res = false ->
  acceptsStatus (res_status res) = true ->
  includes (rewrittenPath req) "/chat" = false ->
  outcome (handler JSON_parse w req)
    = Returned (NextResponse_json
                  (JObj [ ("error", errorDetail JSON_parse (res_text res)) ])
                  (res_status res)) /\
  (JSON_parse (res_text res) = None ->
   errorDetail JSON_parse (res_text res) = JStr (res_text res)) /\
  (forall fields d,
     JSON_parse (res_text res) = Some (JObj fields) ->
     Js.assoc "detail" fields = Some d -> Js.truthy d = true ->
     errorDetail JSON_parse (res_text res) = d) /\
  (forall fields m,
     JSON_parse (res_text res) = Some (JObj fields) ->
     (forall d, Js.assoc "detail" fields = Some d -> Js.truthy d = false) ->
     Js.assoc "message" fields = Some m -> Js.truthy m = true ->
     errorDetail JSON_parse (res_text res) = m) /\
  (forall fields,
     JSON_parse (res_text res) = Some (JObj fields) ->
     (forall d, Js.assoc "detail" fields = Some d -> Js.truthy d = false) ->
     (forall m, Js.assoc "message" fields = Some m -> Js.truthy m = false) ->
     errorDetail JSON_parse (res_text res) = JStr (res_text res)).
Proof.
  intros Hb Hn Hok Hacc Hchat. split.
  - rewrite (run_fetch_resolves JSON_parse w req apiBaseUrl res Hb Hn).
    unfold outcome, fst. rewrite Hok. cbv [negb].
    unfold onBackendError, construct. rewrite Hchat.
    cbn [statusOf]. now rewrite Hacc.
  - repeat split.
    + apply errorDetail_unparsed.
    + intros fields d. apply errorDetail_detail.
    + intros fields m. apply errorDetail_message.
    + intros fields. apply errorDetail_neither.
Qed.

Lemma backend_error_status_preserved_witness :
  outcome (handler (parseTable [ (detailText "Task not found",
                                  JObj [ ("detail", JStr "Task not found") ]) ])
                   (liveWorld (Some "abc") 404 (detailText "Task not found"))
                   (sampleRequest "GET" ["tasks"; "99"]))
  = Returned (NextResponse_json (JObj [ ("error", JStr "Task not found") ]) 404).
Proof.
  apply (proj1 (backend_error_status_preserved
           (parseTable [ (detailText "Task not found",
                          JObj [ ("detail", JStr "Task not found") ]) ])
           (liveWorld (Some "abc") 404 (detailText "Task not found"))
           (sampleRequest "GET" ["tasks"; "99"])
           "http://backend:8000"
           {| res_status := 404;
              res_content_type := Some "application/json";
              res_text := detailText "Task not found" |}
           eq_refl eq_refl eq_refl eq_refl eq_refl)).
Defined.

(** ** The backend cannot be reached *)

(** C6 as stated fails: a rewritten path may contain both [/tasks] and
    [/chat], and in development mode the task fallback is tested first,
    with or without an origin.  The inbound path [/tasks/chat] gets the
    sample task list, not the chat shape. *)
Lemma chat_fallback_shadowed_by_task_fallback :
  rewrittenPath (sampleRequest "POST" ["tasks"; "chat"]) = "/api/v1/tasks/chat" /\
  includes (rewrittenPath (sampleRequest "POST" ["tasks"; "chat"])) "/chat" = true /\
  (baseUrl offlineDevWorld = None /\
   isDevelopment offlineDevWorld = true /\
   outcome (handler (parseTable []) offlineDevWorld
                    (sampleRequest "POST" ["tasks"; "chat"]))
   = Returned (NextResponse_json
                 (JObj [ ("items", mockTasks offlineDevWorld) ]) 200) /\
   ~ (exists response : string,
        outcome (handler (parseTable []) offlineDevWorld
                         (sampleRequest "POST" ["tasks"; "chat"]))
        = Returned (NextResponse_json (chatShape response) 200))) /\
  (baseUrl downDevWorld = Some "http://localhost:8000" /\
   (forall url init, network downDevWorld url init = unreachable) /\
   ~ (exists response : string,
        outcome (handler (parseTable []) downDevWorld
                         (sampleRequest "POST" ["tasks"; "chat"]))
        = Returned (NextResponse_json (chatShape response) 200))).
Proof.
  repeat split.
  - intros [response H]. discriminate H.
  - intros [response H]. discriminate H.
Qed.

(** C6, amended: the rewritten path contains [/chat] and the task
    fallback does not apply (the mode is production or the path does not
    contain [/tasks]).  With no origin in development mode, and with an
    origin whose [fetch] throws, the handler returns status 200 with the
    chat shape; the [response] text is not empty, and in the second case
    it is the trouble-connecting message. *)
Theorem chat_fallback_when_unreachable
    (JSON_parse : string -> option JsonValue) (w : World) (req : Request) :
  includes (rewrittenPath req) "/chat" = true ->
  isDevelopment w && includes (rewrittenPath req) "/tasks" = false ->
  (baseUrl w = None -> isDevelopment w = true ->
   outcome (handler JSON_parse w req)
   = Returned (NextResponse_json (chatShape devChatMessage) 200)) /\
  (forall apiBaseUrl e,
     baseUrl w = Some apiBaseUrl ->
     network w (apiBaseUrl ++ rewrittenPath req)
               (outboundInit req (sentHeaders w (rewrittenPath req)))
       = Rejects e ->
     outcome (handler JSON_parse w req)
     = Returned (NextResponse_json (chatShape networkChatMessage) 200)) /\
  devChatMessage <> "" /\
  networkChatMessage <> "" /\
  includes networkChatMessage "trouble connecting" = true /\
  chatShape networkChatMessage =
    JObj [ ("conversation_id", JNum "1");
           ("response", JStr networkChatMessage);
           ("has_tools_executed", JBool false);
           ("tool_results", JArr []);
           ("message_id", JNull) ].
Proof.
  intros Hchat Htasks. repeat split; try discriminate.
  - intros Hb Hdev. rewrite (run_not_configured JSON_parse w req Hb).
    unfold outcome, fst, notConfigured.
    now rewrite Htasks, Hdev, Hchat.
  - intros u e Hb Hn.
    rewrite (run_fetch_rejects JSON_parse w req u e Hb Hn).
    unfold outcome, fst, onFetchError. now rewrite Htasks, Hchat.
Qed.

Lemma chat_fallback_when_unreachable_witness :
  outcome (handler (parseTable []) offlineDevWorld
                   (sampleRequest "POST" ["1"; "chat"]))
  = Returned (NextResponse_json (chatShape devChatMessage) 200) /\
  outcome (handler (parseTable []) downProdWorld
                   (sampleRequest "POST" ["1"; "chat"]))
  = Returned (NextResponse_json (chatShape networkChatMessage) 200).
Proof.
  split.
  - apply (proj1 (chat_fallback_when_unreachable
                    (parseTable []) offlineDevWorld
                    (sampleRequest "POST" ["1"; "chat"]) eq_refl eq_refl));
      reflexivity.
  - apply (proj1 (proj2 (chat_fallback_when_unreachable
                    (parseTable []) downProdWorld
                    (sampleRequest "POST" ["1"; "chat"]) eq_refl eq_refl))
             "http://backend:8000" (ErrorObject "fetch failed"));
      reflexivity.
Defined.

(** ** No origin configured *)

(** C7: with no origin configured the handler returns (it does not
    throw) and sends nothing.  The answer is the structured 503 error
    when the rewritten path contains neither [/tasks] nor [/chat], and
    for every path in production mode; in development mode a path
    containing [/tasks] or [/chat] gets a synthetic answer of status
    200. *)
Theorem no_origin_structured_answer
    (JSON_parse : string -> option JsonValue) (w : World) (req : Request) :
  baseUrl w = None ->
  (exists r, handler JSON_parse w req
             = (Returned r, sessionCalls (rewrittenPath req))) /\
  (includes (rewrittenPath req) "/tasks" = false ->
   includes (rewrittenPath req) "/chat" = false ->
   outcome (handler JSON_parse w req) = Returned notConfiguredError) /\
  (isDevelopment w = false ->
   outcome (handler JSON_parse w req) = Returned notConfiguredError) /\
  (isDevelopment w = true ->
   includes (rewrittenPath req) "/tasks" = true ->
   outcome (handler JSON_parse w req)
   = Returned (NextResponse_json (JObj [ ("items", mockTasks w) ]) 200)) /\
  (isDevelopment w = true ->
   includes (rewrittenPath req) "/tasks" = false ->
   includes (rewrittenPath req) "/chat" = true ->
   outcome (handler JSON_parse w req)
   = Returned (NextResponse_json (chatShape devChatMessage) 200)).
Proof.
  intros Hb. rewrite (run_not_configured JSON_parse w req Hb).
  unfold outcome, fst, notConfigured, notConfiguredError.
  repeat split.
  - eexists. reflexivity.
  - intros -> ->. now rewrite !andb_false_r.
  - now intros ->.
  - now intros -> ->.
  - now intros -> -> ->.
Qed.

Lemma no_origin_structured_answer_witness :
  outcome (handler (parseTable []) offlineProdWorld
                   (sampleRequest "POST" ["1"; "chat"]))
  = Returned notConfiguredError /\
  outcome (handler (parseTable []) offlineDevWorld
                   (sampleRequest "GET" ["users"]))
  = Returned notConfiguredError.
Proof.
  split.
  - apply (proj1 (proj2 (proj2 (no_origin_structured_answer
             (parseTable []) offlineProdWorld
             (sampleRequest "POST" ["1"; "chat"]) eq_refl)))).
    reflexivity.
  - apply (proj1 (proj2 (no_origin_structured_answer
             (parseTable []) offlineDevWorld
             (sampleRequest "GET" ["users"]) eq_refl)));
      reflexivity.
Defined.

(** ** The outbound request *)

(** C8: every request the handler sends mirrors the inbound method;
    it has no body when the method is [GET] or [HEAD], whatever the
    inbound body, and carries the inbound body text otherwise. *)
Theorem forwarded_body
    (JSON_parse : string -> option JsonValue) (w : World) (req : Request)
    (url : string) (init : RequestInit) :
  In (Fetch url init) (calls (handler JSON_parse w req)) ->
  init_method init = req_method req /\
  (req_method req = "GET" \/ req_method req = "HEAD" ->
   init_body init = None) /\
  (req_method req <> "GET" -> req_method req <> "HEAD" ->
   init_body init = Some (req_text req)).
Proof.
  intros Hin.
  destruct (fetch_in_calls JSON_parse w req url init Hin) as (u & _ & _ & ->).
  unfold outboundInit, isGetOrHead, requestBody. cbn [init_method init_body].
  repeat split.
  - intros [-> | ->]; reflexivity.
  - intros Hget Hhead.
    apply String.eqb_neq in Hget, Hhead. now rewrite Hget, Hhead.
Qed.

Lemma forwarded_body_witness :
  req_text (sampleRequest "GET" ["tasks"]) <> "" /\
  init_body {| init_method := "GET";
               init_headers := (baseHeaders ++ [ ("Authorization", "Bearer abc") ])%list;
               init_body := None |} = None.
Proof.
  split; [discriminate|].
  apply (forwarded_body (parseTable []) (liveWorld (Some "abc") 200 "[]")
           (sampleRequest "GET" ["tasks"])
           "http://backend:8000/api/v1/tasks"
           {| init_method := "GET";
              init_headers := (baseHeaders ++ [ ("Authorization", "Bearer abc") ])%list;
              init_body := None |}).
  - right. left. reflexivity.
  - left. reflexivity.
Defined.

Example post_body_forwarded :
  calls (handler (parseTable []) (liveWorld (Some "abc") 200 "[]")
                 (sampleRequest "POST" ["tasks"]))
  = [ SessionLookup;
      Fetch "http://backend:8000/api/v1/tasks"
            {| init_method := "POST";
               init_headers := [ ("Accept", "application/json");
                                 ("Content-Type", "application/json");
                                 ("Authorization", "Bearer abc") ];
               init_body := Some (req_text (sampleRequest "POST" ["tasks"])) |} ].
Proof. reflexivity. Qed.

Lemma session_lookup_only_when_private
    (JSON_parse : string -> option JsonValue) (w : World) (req : Request) :
  In SessionLookup (calls (handler JSON_parse w req)) ->
  isPublicEndpoint (rewrittenPath req) = false.
Proof.
  destruct (handler_run JSON_parse w req) as [r ->]. unfold calls, snd.
  rewrite in_app_iff. intros [H|H].
  - unfold sessionCalls in H.
    now destruct (isPublicEndpoint (rewrittenPath req)).
  - unfold fetchCalls in H.
    destruct (baseUrl w); [|destruct H].
    destruct H as [H|[]]. discriminate H.
Qed.

Lemma sentHeaders_public (w : World) (tp : string) :
  isPublicEndpoint tp = true -> sentHeaders w tp = baseHeaders.
Proof. unfold sentHeaders. now intros ->. Qed.

Lemma sentHeaders_private (w : World) (tp : string) :
  isPublicEndpoint tp = false ->
  sentHeaders w tp = withAuthorization (token w (session w)).
Proof. unfold sentHeaders. now intros ->. Qed.

Lemma authorization_of_token (t : string) :
  t <> "" ->
  headerValue (withAuthorization (Some t)) "Authorization"
  = Some ("Bearer " ++ t).
Proof.
  intros Ht. unfold withAuthorization, Js.truthyStr.
  apply String.eqb_neq in Ht. now rewrite Ht.
Qed.

(** C9: when the rewritten path contains [/auth], no session lookup is
    made and no request the handler sends has an [Authorization]
    header.  Otherwise every request it sends carries [Bearer <token>]
    when the session has a (non-empty) token; when it has none, the
    header is [Bearer mock-token] in development mode and is absent in
    production mode. *)
Theorem authorization_header
    (JSON_parse : string -> option JsonValue) (w : World) (req : Request) :
  (includes (rewrittenPath req) "/auth" = true ->
   ~ In SessionLookup (calls (handler JSON_parse w req)) /\
   forall url init,
     In (Fetch url init) (calls (handler JSON_parse w req)) ->
     headerValue (init_headers init) "Authorization" = None) /\
  (includes (rewrittenPath req) "/auth" = false ->
   forall url init,
     In (Fetch url init) (calls (handler JSON_parse w req)) ->
     (forall t, sessionToken (session w) = Some t -> t <> "" ->
        headerValue (init_headers init) "Authorization"
        = Some ("Bearer " ++ t)) /\
     (Js.truthyStr (sessionToken (session w)) = false ->
      isDevelopment w = false ->
      headerValue (init_headers init) "Authorization" = None) /\
     (Js.truthyStr (sessionToken (session w)) = false ->
      isDevelopment w = true ->
      headerValue (init_headers init) "Authorization"
      = Some "Bearer mock-token")).
Proof.
  split.
  - intros Hpub. split.
    + intros Hin.
      apply session_lookup_only_when_private in Hin.
      unfold isPublicEndpoint in Hin. congruence.
    + intros url init Hin.
      destruct (fetch_in_calls JSON_parse w req url init Hin)
        as (u & _ & _ & ->).
      cbn [outboundInit init_headers].
      now rewrite (sentHeaders_public w _ Hpub).
  - intros Hpriv url init Hin.
    destruct (fetch_in_calls JSON_parse w req url init Hin)
      as (u & _ & _ & ->).
    cbn [outboundInit init_headers].
    rewrite (sentHeaders_private w _ Hpriv). unfold token.
    repeat split.
    + intros t Ht Hne. rewrite Ht.
      assert (E : Js.truthyStr (Some t) = true).
      { unfold Js.truthyStr. apply String.eqb_neq in Hne. now rewrite Hne. }
      rewrite E. now apply authorization_of_token.
    + intros -> ->. reflexivity.
    + intros -> ->. reflexivity.
Qed.

Lemma authorization_header_witness :
  headerValue
    [ ("Accept", "application/json"); ("Content-Type", "application/json");
      ("Authorization", "Bearer abc") ] "Authorization"
  = Some ("Bearer " ++ "abc") /\
  ~ In SessionLookup
       (calls (handler (parseTable []) (liveWorld (Some "abc") 200 "{}")
                       (sampleRequest "POST" ["api"; "auth"; "login"]))).
Proof.
  split.
  - apply (proj1 (proj2 (authorization_header (parseTable [])
                           (liveWorld (Some "abc") 200 "[]")
                           (sampleRequest "GET" ["tasks"]))
                    eq_refl
                    "http://backend:8000/api/v1/tasks"
                    {| init_method := "GET";
                       init_headers :=
                         [ ("Accept", "application/json");
                           ("Content-Type", "application/json");
                           ("Authorization", "Bearer abc") ];
                       init_body := None |}
                    (or_intror (or_introl eq_refl)))
             "abc" eq_refl).
    discriminate.
  - apply (proj1 (proj1 (authorization_header (parseTable [])
                           (liveWorld (Some "abc") 200 "{}")
                           (sampleRequest "POST" ["api"; "auth"; "login"]))
                    eq_refl)).
Defined.

Example login_sent_without_authorization :
  calls (handler (parseTable []) (liveWorld (Some "abc") 200 "{}")
                 (sampleRequest "POST" ["api"; "auth"; "login"]))
  = [ Fetch "http://backend:8000/api/v1/auth/login"
            {| init_method := "POST";
               init_headers := [ ("Accept", "application/json");
                                 ("Content-Type", "application/json") ];
               init_body :=
                 Some (req_text (sampleRequest "POST" ["api"; "auth"; "login"])) |} ].
Proof. reflexivity. Qed.

Example production_without_session_sends_no_token :
  calls (handler (parseTable []) (liveWorld None 200 "[]")
                 (sampleRequest "GET" ["tasks"]))
  = [ SessionLookup;
      Fetch "http://backend:8000/api/v1/tasks"
            {| init_method := "GET";
               init_headers := [ ("Accept", "application/json");
                                 ("Content-Type", "application/json") ];
               init_body := None |} ].
Proof. reflexivity. Qed.

Example development_without_session_sends_placeholder :
  calls (handler (parseTable []) downDevWorld (sampleRequest "GET" ["users"]))
  = [ SessionLookup;
      Fetch "http://localhost:8000/api/v1/users"
            {| init_method := "GET";
               init_headers := [ ("Accept", "application/json");
                                 ("Content-Type", "application/json");
                                 ("Authorization", "Bearer mock-token") ];
               init_body := None |} ].
Proof. reflexivity. Qed.

(** * Further properties of the rule chain *)

Lemma startsWith_shorter (s a b : string) :
  startsWith s (a ++ b) = true -> startsWith s a = true.
Proof.
  revert s. induction a as [|c a IH]; intros s H; [reflexivity|].
  destruct s as [|d s]; [discriminate H|].
  simpl in *. apply andb_true_iff in H as [-> H]. now apply IH.
Qed.

(** X1: apart from [/me] and from the paths that begin with [/api/],
    every rule of the chain does the same thing: it puts [/api/v1] in
    front of the inbound path. *)
Theorem rewrite_is_plain_prefix (p : string) :
  p <> "/me" ->
  startsWith p "/api/" = false ->
  rewriteRules p = "/api/v1" ++ p.
Proof.
  intros Hme Hapi. unfold rewriteRules.
  destruct (execChat p) as [id|] eqn:Hc.
  { apply execIdRoute_sound in Hc as (-> & _ & _). reflexivity. }
  destruct (execNewConversation p) as [id|] eqn:Hn.
  { apply execIdRoute_sound in Hn as (-> & _ & _). reflexivity. }
  destruct (matchConversations p); [reflexivity|].
  destruct (String.eqb_spec p "/me") as [E|_]; [contradiction|].
  destruct (startsWith p "/me/tasks"); [reflexivity|].
  destruct (startsWith p "/tasks"); [reflexivity|].
  destruct (startsWith p "/api/v1/") eqn:Hv1.
  { apply (startsWith_shorter p "/api/" "v1/") in Hv1. congruence. }
  now rewrite Hapi.
Qed.

Lemma rewrite_is_plain_prefix_witness :
  rewriteRules "/7/new_conversation" = "/api/v1" ++ "/7/new_conversation".
Proof.
  apply (rewrite_is_plain_prefix "/7/new_conversation");
    [discriminate | reflexivity].
Defined.

(** X2: a path that begins with [/api/] but not with [/api/v1/] gets
    [v1/] inserted after [/api/], once. *)
Theorem rewrite_inserts_v1 (rest : string) :
  startsWith rest "v1/" = false ->
  rewriteRules ("/api/" ++ rest) = "/api/v1/" ++ rest.
Proof.
  intros Hv1. unfold rewriteRules.
  change (execChat ("/api/" ++ rest)) with (@None string).
  change (execNewConversation ("/api/" ++ rest)) with (@None string).
  change (matchConversations ("/api/" ++ rest)) with false.
  change (String.eqb ("/api/" ++ rest) "/me") with false.
  change (startsWith ("/api/" ++ rest) "/me/tasks") with false.
  change (startsWith ("/api/" ++ rest) "/tasks") with false.
  change (startsWith ("/api/" ++ rest) "/api/v1/") with (startsWith rest "v1/").
  rewrite Hv1. cbv iota.
  rewrite (startsWith_append "/api/" rest), replace_unfold.
  now rewrite (startsWith_append "/api/" rest), (slice_append "/api/" rest).
Qed.

Lemma rewrite_inserts_v1_witness :
  rewriteRules ("/api/" ++ "auth/login") = "/api/v1/" ++ "auth/login".
Proof. apply (rewrite_inserts_v1 "auth/login"). reflexivity. Defined.

(** * Further properties of the handler *)

(** X3: the handler never throws.  It looks the session up at most
    once, then calls [fetch] at most once, and only at the configured
    origin followed by the rewritten path. *)
Theorem handler_answers_with_one_fetch
    (JSON_parse : string -> option JsonValue) (w : World) (req : Request) :
  (exists r : Response, outcome (handler JSON_parse w req) = Returned r) /\
  calls (handler JSON_parse w req)
  = ((if isPublicEndpoint (rewrittenPath req) then [] else [SessionLookup])
     ++ match baseUrl w with
        | None => []
        | Some apiBaseUrl =>
            [ Fetch (apiBaseUrl ++ rewrittenPath req)
                    (outboundInit req (sentHeaders w (rewrittenPath req))) ]
        end)%list.
Proof.
  destruct (handler_run JSON_parse w req) as [r ->]. split.
  - now exists r.
  - unfold calls, snd, sessionCalls, fetchCalls.
    now destruct (isPublicEndpoint (rewrittenPath req)).
Qed.

(** X4: an [ok] answer whose status the [Response] constructor accepts
    (2xx other than 204 and 205) and whose content type mentions
    [application/json] is passed on with the backend's status; its body
    is the parsed JSON, or [null] when the body does not parse. *)
Theorem ok_json_passed_through
    (JSON_parse : string -> option JsonValue) (w : World) (req : Request)
    (apiBaseUrl contentType : string) (res : BackendResponse) :
  baseUrl w = Some apiBaseUrl ->
  network w (apiBaseUrl ++ rewrittenPath req)
            (outboundInit req (sentHeaders w (rewrittenPath req)))
    = Resolves res ->
  res_ok res = true ->
  acceptsStatus (res_status res) = true ->
  res_content_type res = Some contentType ->
  includes contentType "application/json" = true ->
  outcome (handler JSON_parse w req)
  = Returned (NextResponse_json
                match JSON_parse (res_text res) with
                | Some json => json
                | None => JNull
                end
                (res_status res)).
Proof.
  intros Hb Hn Hok Hacc Hct Hjson.
  rewrite (run_fetch_resolves JSON_parse w req apiBaseUrl res Hb Hn).
  unfold outcome, fst, onBackendSuccess, construct.
  rewrite Hok, Hct, Hjson. cbn [negb statusOf]. now rewrite Hacc.
Qed.

Lemma ok_json_passed_through_witness :
  outcome (handler (parseTable [ ("[]", JArr []) ])
                   (liveWorld (Some "abc") 201 "[]")
                   (sampleRequest "POST" ["tasks"]))
  = Returned (NextResponse_json (JArr []) 201) /\
  outcome (handler (parseTable [])
                   (liveWorld (Some "abc") 200 "<html>")
                   (sampleRequest "GET" ["tasks"]))
  = Returned (NextResponse_json JNull 200).
Proof.
  split.
  - apply (ok_json_passed_through (parseTable [ ("[]", JArr []) ])
             (liveWorld (Some "abc") 201 "[]")
             (sampleRequest "POST" ["tasks"])
             "http://backend:8000" "application/json"
             {| res_status := 201;
                res_content_type := Some "application/json";
                res_text := "[]" |});
      reflexivity.
  - apply (ok_json_passed_through (parseTable [])
             (liveWorld (Some "abc") 200 "<html>")
             (sampleRequest "GET" ["tasks"])
             "http://backend:8000" "application/json"
             {| res_status := 200;
                res_content_type := Some "application/json";
                res_text := "<html>" |});
      reflexivity.
Defined.

(** X5: an [ok] answer whose status the [Response] constructor accepts
    (2xx other than 204 and 205), with any other content type or with
    none, is passed on as its raw text with the backend's status. *)
Theorem ok_text_passed_through
    (JSON_parse : string -> option JsonValue) (w : World) (req : Request)
    (apiBaseUrl : string) (res : BackendResponse) :
  baseUrl w = Some apiBaseUrl ->
  network w (apiBaseUrl ++ rewrittenPath req)
            (outboundInit req (sentHeaders w (rewrittenPath req)))
    = Resolves res ->
  res_ok res = true ->
  acceptsStatus (res_status res) = true ->
  match res_content_type res with
  | Some contentType => includes contentType "application/json" = false
  | None => True
  end ->
  outcome (handler JSON_parse w req)
  = Returned (NextResponse_new (res_text res) (res_status res)).
Proof.
  intros Hb Hn Hok Hacc Hct.
  rewrite (run_fetch_resolves JSON_parse w req apiBaseUrl res Hb Hn).
  unfold outcome, fst, onBackendSuccess, construct. rewrite Hok. cbv [negb].
  destruct (res_content_type res) as [c|];
    [rewrite Hct|]; cbn [includes startsWith orb statusOf]; now rewrite Hacc.
Qed.

Lemma ok_text_passed_through_witness :
  outcome (handler (parseTable [])
                   (sampleWorld (Some "production") (Some "http://backend:8000")
                      None
                      (Resolves {| res_status := 200;
                                   res_content_type := Some "text/plain";
                                   res_text := "pong" |}))
                   (sampleRequest "GET" ["health"]))
  = Returned (NextResponse_new "pong" 200).
Proof.
  apply (ok_text_passed_through (parseTable [])
           (sampleWorld (Some "production") (Some "http://backend:8000") None
              (Resolves {| res_status := 200;
                           res_content_type := Some "text/plain";
                           res_text := "pong" |}))
           (sampleRequest "GET" ["health"])
           "http://backend:8000"
           {| res_status := 200;
              res_content_type := Some "text/plain";
              res_text := "pong" |});
    reflexivity.
Defined.

(** X6: when [fetch] throws and neither fallback applies (the path has
    no [/chat], and the mode is production or the path has no [/tasks]),
    the caller gets status 500 with the proxy error object, whose
    [error] text names the failure. *)
Theorem fetch_failure_is_proxy_error
    (JSON_parse : string -> option JsonValue) (w : World) (req : Request)
    (apiBaseUrl : string) (e : Thrown) :
  baseUrl w = Some apiBaseUrl ->
  network w (apiBaseUrl ++ rewrittenPath req)
            (outboundInit req (sentHeaders w (rewrittenPath req)))
    = Rejects e ->
  includes (rewrittenPath req) "/chat" = false ->
  isDevelopment w && includes (rewrittenPath req) "/tasks" = false ->
  outcome (handler JSON_parse w req)
  = Returned (NextResponse_json
                (JObj [ ("message", JStr "Proxy error occurred");
                        ("error", JStr ("Failed to connect to backend: "
                                        ++ describe e)) ])
                500).
Proof.
  intros Hb Hn Hchat Htasks.
  rewrite (run_fetch_rejects JSON_parse w req apiBaseUrl e Hb Hn).
  unfold outcome, fst, onFetchError. now rewrite Htasks, Hchat.
Qed.

Lemma fetch_failure_is_proxy_error_witness :
  outcome (handler (parseTable []) downProdWorld (sampleRequest "GET" ["tasks"]))
  = Returned (NextResponse_json
                (JObj [ ("message", JStr "Proxy error occurred");
                        ("error", JStr ("Failed to connect to backend: "
                                        ++ describe (ErrorObject "fetch failed"))) ])
                500).
Proof.
  apply (fetch_failure_is_proxy_error (parseTable []) downProdWorld
           (sampleRequest "GET" ["tasks"]) "http://backend:8000"
           (ErrorObject "fetch failed"));
    reflexivity.
Defined.

(** X7: in development mode a rewritten path that contains [/tasks]
    never meets an unreachable backend: with no origin configured, and
    with an origin whose [fetch] throws, the answer is status 200 with
    the two sample tasks under [items]. *)
Theorem development_task_fallback
    (JSON_parse : string -> option JsonValue) (w : World) (req : Request) :
  isDevelopment w = true ->
  includes (rewrittenPath req) "/tasks" = true ->
  (baseUrl w = None ->
   outcome (handler JSON_parse w req)
   = Returned (NextResponse_json (JObj [ ("items", mockTasks w) ]) 200)) /\
  (forall apiBaseUrl e,
     baseUrl w = Some apiBaseUrl ->
     network w (apiBaseUrl ++ rewrittenPath req)
               (outboundInit req (sentHeaders w (rewrittenPath req)))
       = Rejects e ->
     outcome (handler JSON_parse w req)
     = Returned (NextResponse_json (JObj [ ("items", mockTasks w) ]) 200)) /\
  (exists first second, mockTasks w = JArr [ first; second ]).
Proof.
  intros Hdev Htasks. repeat split.
  - intros Hb. rewrite (run_not_configured JSON_parse w req Hb).
    unfold outcome, fst, notConfigured. now rewrite Hdev, Htasks.
  - intros u e Hb Hn.
    rewrite (run_fetch_rejects JSON_parse w req u e Hb Hn).
    unfold outcome, fst, onFetchError. now rewrite Hdev, Htasks.
  - unfold mockTasks. eexists. eexists. reflexivity.
Qed.

Lemma development_task_fallback_witness :
  outcome (handler (parseTable []) offlineDevWorld
                   (sampleRequest "GET" ["me"; "tasks"]))
  = Returned (NextResponse_json (JObj [ ("items", mockTasks offlineDevWorld) ]) 200) /\
  outcome (handler (parseTable []) downDevWorld (sampleRequest "GET" ["tasks"]))
  = Returned (NextResponse_json (JObj [ ("items", mockTasks downDevWorld) ]) 200).
Proof.
  split.
  - apply (proj1 (development_task_fallback (parseTable []) offlineDevWorld
                    (sampleRequest "GET" ["me"; "tasks"]) eq_refl eq_refl)).
    reflexivity.
  - apply (proj1 (proj2 (development_task_fallback (parseTable []) downDevWorld
                    (sampleRequest "GET" ["tasks"]) eq_refl eq_refl))
             "http://localhost:8000" (ErrorObject "fetch failed"));
      reflexivity.
Defined.

(** ** The chat route, end to end *)

Lemma includes_cons (c : ascii) (s p : string) :
  includes (String c s) p = startsWith (String c s) p || includes s p.
Proof. reflexivity. Qed.

Lemma includes_digits (n t q : string) :
  allDigits n = true ->
  includes (n ++ t) (String "/" q) = includes t (String "/" q).
Proof.
  induction n as [|c n IH]; intros Hn; [reflexivity|].
  simpl in Hn. apply andb_true_iff in Hn as [Hc Hn].
  change (String c n ++ t) with (String c (n ++ t)).
  rewrite includes_cons, startsWith_head_differs, (IH Hn); [reflexivity|].
  intros e. symmetry in e. now apply digit_not_slash in Hc.
Qed.

Lemma rewriteRules_chat (n : string) :
  n <> "" -> allDigits n = true ->
  rewriteRules ("/" ++ n ++ "/chat") = "/api/v1/" ++ n ++ "/chat".
Proof.
  intros Hne Hn. unfold rewriteRules, execChat.
  now rewrite (execIdRoute_digits "chat" n Hne Hn).
Qed.

Lemma chat_route_has_chat (n : string) :
  includes ("/api/v1/" ++ n ++ "/chat") "/chat" = true.
Proof. apply (includes_skip "/api/v1/"), (includes_skip n). reflexivity. Qed.

Lemma chat_route_has_no_tasks (n : string) :
  allDigits n = true ->
  includes ("/api/v1/" ++ n ++ "/chat") "/tasks" = false.
Proof.
  intros Hn.
  change ("/api/v1/" ++ n ++ "/chat")
    with (String "/" (String "a" (String "p" (String "i" (String "/"
            (String "v" (String "1" (String "/" (n ++ "/chat"))))))))).
  do 8 rewrite includes_cons. rewrite (includes_digits n "/chat" "tasks" Hn).
  destruct n as [|c n]; [reflexivity|].
  simpl in Hn. apply andb_true_iff in Hn as [Hc _].
  change (String c n ++ "/chat") with (String c (n ++ "/chat")).
  cbn [startsWith Ascii.eqb Bool.eqb andb orb].
  destruct c as [[] [] [] [] [] [] [] []]; try discriminate Hc; reflexivity.
Qed.

Lemma chat_route_has_no_auth (n : string) :
  allDigits n = true ->
  includes ("/api/v1/" ++ n ++ "/chat") "/auth" = false.
Proof.
  intros Hn.
  change ("/api/v1/" ++ n ++ "/chat")
    with (String "/" (String "a" (String "p" (String "i" (String "/"
            (String "v" (String "1" (String "/" (n ++ "/chat"))))))))).
  do 8 rewrite includes_cons. rewrite (includes_digits n "/chat" "auth" Hn).
  destruct n as [|c n]; [reflexivity|].
  simpl in Hn. apply andb_true_iff in Hn as [Hc _].
  change (String c n ++ "/chat") with (String c (n ++ "/chat")).
  cbn [startsWith Ascii.eqb Bool.eqb andb orb].
  destruct c as [[] [] [] [] [] [] [] []]; try discriminate Hc; reflexivity.
Qed.

(** X8: for the chat route proper, an inbound path [/n/chat] with [n] a
    non-empty run of digits, the task fallback never gets in the way.
    The session is looked up first; if no origin is configured in
    development mode, or if [fetch] throws in either mode, the caller
    gets status 200 with the chat shape. *)
Theorem chat_route_survives_outage
    (JSON_parse : string -> option JsonValue) (w : World) (req : Request)
    (n : string) :
  n <> "" ->
  allDigits n = true ->
  initialPath (req_path req) = "/" ++ n ++ "/chat" ->
  rewrittenPath req = "/api/v1/" ++ n ++ "/chat" /\
  (exists rest, calls (handler JSON_parse w req) = SessionLookup :: rest) /\
  (baseUrl w = None -> isDevelopment w = true ->
   outcome (handler JSON_parse w req)
   = Returned (NextResponse_json (chatShape devChatMessage) 200)) /\
  (forall apiBaseUrl e,
     baseUrl w = Some apiBaseUrl ->
     network w (apiBaseUrl ++ rewrittenPath req)
               (outboundInit req (sentHeaders w (rewrittenPath req)))
       = Rejects e ->
     outcome (handler JSON_parse w req)
     = Returned (NextResponse_json (chatShape networkChatMessage) 200)).
Proof.
  intros Hne Hn Hp.
  assert (Htp : rewrittenPath req = "/api/v1/" ++ n ++ "/chat").
  { unfold rewrittenPath, transformedPath. rewrite Hp.
    now apply rewriteRules_chat. }
  pose proof (chat_route_has_chat n) as Hchat.
  pose proof (chat_route_has_no_tasks n Hn) as Htasks.
  pose proof (chat_route_has_no_auth n Hn) as Hauth.
  rewrite <- Htp in Hchat, Htasks, Hauth.
  split; [exact Htp|]. split; [|split].
  - destruct (handler_run JSON_parse w req) as [r ->].
    unfold calls, snd, sessionCalls, isPublicEndpoint. rewrite Hauth.
    eexists. reflexivity.
  - intros Hb Hdev. rewrite (run_not_configured JSON_parse w req Hb).
    unfold outcome, fst, notConfigured.
    now rewrite Htasks, Hchat, Hdev.
  - intros u e Hb Hr.
    rewrite (run_fetch_rejects JSON_parse w req u e Hb Hr).
    unfold outcome, fst, onFetchError.
    now rewrite Htasks, Hchat, andb_false_r.
Qed.

Lemma chat_route_survives_outage_witness :
  outcome (handler (parseTable []) downDevWorld
                   (sampleRequest "POST" ["12"; "chat"]))
  = Returned (NextResponse_json (chatShape networkChatMessage) 200).
Proof.
  assert (Hne : "12" <> "") by discriminate.
  apply (proj2 (proj2 (proj2
           (chat_route_survives_outage (parseTable []) downDevWorld
              (sampleRequest "POST" ["12"; "chat"]) "12"
              Hne eq_refl eq_refl)))
           "http://localhost:8000" (ErrorObject "fetch failed"));
    reflexivity.
Defined.





(** X11: the profile request [/me] is rewritten to [/api/v1/auth/me],
    which counts as public: whatever the session and the mode, no
    session lookup is made and the request goes out with the two fixed
    headers only, without [Authorization]. *)
Theorem me_is_forwarded_without_token
    (JSON_parse : string -> option JsonValue) (w : World) (req : Request) :
  req_path req = ["me"] ->
  calls (handler JSON_parse w req)
  = match baseUrl w with
    | None => []
    | Some apiBaseUrl =>
        [ Fetch (apiBaseUrl ++ "/api/v1/auth/me")
                {| init_method := req_method req;
                   init_headers := [ ("Accept", "application/json");
                                     ("Content-Type", "application/json") ];
                   init_body := if isGetOrHead (req_method req) then None
                                else Some (requestBody req) |} ]
    end.
Proof.
  intros Hp. destruct (handler_run JSON_parse w req) as [r ->].
  unfold calls, snd, sessionCalls, fetchCalls, sentHeaders, rewrittenPath.
  rewrite Hp. reflexivity.
Qed.

Lemma me_is_forwarded_without_token_witness :
  calls (handler (parseTable []) (liveWorld (Some "abc") 200 "{}")
                 (sampleRequest "GET" ["me"]))
  = [ Fetch ("http://backend:8000" ++ "/api/v1/auth/me")
            {| init_method := "GET";
               init_headers := [ ("Accept", "application/json");
                                 ("Content-Type", "application/json") ];
               init_body := None |} ].
Proof.
  apply (me_is_forwarded_without_token (parseTable [])
           (liveWorld (Some "abc") 200 "{}") (sampleRequest "GET" ["me"])
           eq_refl).
Defined.

(** * The second proxy route *)

Ltac run := cbv beta iota delta [bind ret tryCatch fetch emit throw liftThrow].

Lemma headers_at (w : World) (tp : string) :
  headers w tp = (Returned (sentHeaders w tp), sessionCalls tp).
Proof.
  unfold headers, sentHeaders, sessionCalls.
  now destruct (isPublicEndpoint tp).
Qed.

(** X12: the two routes disagree on [/me/tasks...]: route.ts keeps the
    [/me] and forwards to [/api/v1/me/tasks...], the second route strips
    it and forwards to [/api/v1/tasks...]. *)
Theorem me_tasks_kept_or_stripped (rest : string) :
  rewriteRules ("/me/tasks" ++ rest) = "/api/v1/me/tasks" ++ rest /\
  Part001.rewriteRules ("/me/tasks" ++ rest) = "/api/v1/tasks" ++ rest.
Proof.
  split; [reflexivity|].
  unfold Part001.rewriteRules.
  change (execChat ("/me/tasks" ++ rest)) with (@None string).
  change (execNewConversation ("/me/tasks" ++ rest)) with (@None string).
  change (matchConversations ("/me/tasks" ++ rest)) with false.
  change (String.eqb ("/me/tasks" ++ rest) "/me") with false.
  cbv iota.
  rewrite (startsWith_append "/me/tasks" rest), replace_unfold.
  now rewrite (startsWith_append "/me/tasks" rest),
              (slice_append "/me/tasks" rest).
Qed.

(** X13: in the second route a path that already begins with
    [/api/v1/], other than [/api/v1/auth...], falls to the generic
    [/api/] rule and comes out with a doubled [v1/]. *)
Theorem part001_doubles_v1 (rest : string) :
  startsWith rest "auth" = false ->
  Part001.rewriteRules ("/api/v1/" ++ rest) = "/api/v1/v1/" ++ rest.
Proof.
  intros Hauth. unfold Part001.rewriteRules.
  change (execChat ("/api/v1/" ++ rest)) with (@None string).
  change (execNewConversation ("/api/v1/" ++ rest)) with (@None string).
  change (matchConversations ("/api/v1/" ++ rest)) with false.
  change (String.eqb ("/api/v1/" ++ rest) "/me") with false.
  change (startsWith ("/api/v1/" ++ rest) "/me/tasks") with false.
  change (startsWith ("/api/v1/" ++ rest) "/tasks") with false.
  change (startsWith ("/api/v1/" ++ rest) "/api/v1/auth")
    with (startsWith rest "auth").
  rewrite Hauth. reflexivity.
Qed.

Lemma part001_doubles_v1_witness :
  Part001.rewriteRules ("/api/v1/" ++ "tasks") = "/api/v1/v1/" ++ "tasks".
Proof. apply (part001_doubles_v1 "tasks"). reflexivity. Defined.

(** X14: the second route has no fallback for a missing origin: in
    every mode and for every path, chat and task paths included, the
    answer is the 503 error object, and nothing is sent. *)
Theorem part001_no_origin_is_503
    (JSON_parse : string -> option JsonValue) (w : World) (req : Request) :
  baseUrl w = None ->
  outcome (Part001Handler.handler JSON_parse w req)
  = Returned
      (NextResponse_json
         (JObj [ ("error",
                  JStr "API backend not configured. Please set API_BASE_URL or NEXT_PUBLIC_API_BASE_URL environment variable.") ])
         503) /\
  forall url init,
    ~ In (Fetch url init) (calls (Part001Handler.handler JSON_parse w req)).
Proof.
  intros Hb.
  unfold Part001Handler.handler, Part001Handler.handlerBody.
  rewrite headers_at, Hb. run. split; [reflexivity|].
  intros url init. unfold calls, snd. rewrite !app_nil_r.
  unfold sessionCalls.
  destruct (negb (isPublicEndpoint
                    (Part001Handler.transformedPath (req_path req))));
    simpl; intuition discriminate.
Qed.

Lemma part001_no_origin_is_503_witness :
  outcome (Part001Handler.handler (parseTable []) offlineDevWorld
             (sampleRequest "POST" ["1"; "chat"]))
  = Returned
      (NextResponse_json
         (JObj [ ("error",
                  JStr "API backend not configured. Please set API_BASE_URL or NEXT_PUBLIC_API_BASE_URL environment variable.") ])
         503).
Proof.
  apply (proj1 (part001_no_origin_is_503 (parseTable []) offlineDevWorld
                  (sampleRequest "POST" ["1"; "chat"]) eq_refl)).
Defined.

(** X15: nor has it one for a failing [fetch]: for every path, chat
    paths included, the caller gets status 500 with the proxy error
    object, whose [error] text names the origin and the failure. *)
Theorem part001_fetch_failure_is_500
    (JSON_parse : string -> option JsonValue) (w : World) (req : Request)
    (apiBaseUrl : string) (e : Thrown) :
  baseUrl w = Some apiBaseUrl ->
  network w (apiBaseUrl ++ Part001Handler.transformedPath (req_path req))
            (outboundInit req
               (sentHeaders w (Part001Handler.transformedPath (req_path req))))
    = Rejects e ->
  outcome (Part001Handler.handler JSON_parse w req)
  = Returned (NextResponse_json
                (JObj [ ("message", JStr "Proxy error occurred");
                        ("error", JStr ("Failed to connect to backend at "
                                        ++ apiBaseUrl ++ ": " ++ describe e)) ])
                500).
Proof.
  intros Hb Hn.
  unfold Part001Handler.handler, Part001Handler.handlerBody.
  rewrite headers_at, Hb. run. rewrite Hn.
  unfold Part001Handler.onFetchError. run. reflexivity.
Qed.

Lemma part001_fetch_failure_is_500_witness :
  outcome (Part001Handler.handler (parseTable []) downDevWorld
             (sampleRequest "POST" ["1"; "chat"]))
  = Returned (NextResponse_json
                (JObj [ ("message", JStr "Proxy error occurred");
                        ("error", JStr ("Failed to connect to backend at "
                                        ++ "http://localhost:8000" ++ ": "
                                        ++ describe (ErrorObject "fetch failed"))) ])
                500).
Proof.
  apply (part001_fetch_failure_is_500 (parseTable []) downDevWorld
           (sampleRequest "POST" ["1"; "chat"]) "http://localhost:8000"
           (ErrorObject "fetch failed"));
    reflexivity.
Defined.



(** * The client side *)

Lemma proxyPath_prefixed (path : string) :
  startsWith (ApiClient.proxyPath path) "/api/proxy/" = true.
Proof.
  unfold ApiClient.proxyPath.
  destruct (startsWith path "/api/proxy/") eqn:Hp; [exact Hp|].
  destruct (startsWith path "/") eqn:Hs; [|reflexivity].
  apply startsWith_split in Hs. rewrite Hs. reflexivity.
Qed.

(** X17: the URL computed by [apiFetch] always begins with
    [/api/proxy/] (a missing leading slash is supplied), and computing
    it from a URL that was already computed changes nothing. *)
Theorem proxyPath_prefixed_once (path : string) :
  startsWith (ApiClient.proxyPath path) "/api/proxy/" = true /\
  ApiClient.proxyPath (ApiClient.proxyPath path) = ApiClient.proxyPath path /\
  (startsWith path "/api/proxy/" = false ->
   startsWith path "/" = true ->
   ApiClient.proxyPath path = "/api/proxy" ++ path) /\
  (startsWith path "/" = false ->
   ApiClient.proxyPath path = "/api/proxy/" ++ path).
Proof.
  repeat split.
  - apply proxyPath_prefixed.
  - unfold ApiClient.proxyPath at 1. now rewrite proxyPath_prefixed.
  - intros Hp Hs. unfold ApiClient.proxyPath. now rewrite Hp, Hs.
  - intros Hs. unfold ApiClient.proxyPath. rewrite Hs.
    destruct (startsWith path "/api/proxy/") eqn:Hp; [|reflexivity].
    apply (startsWith_shorter path "/" "api/proxy/") in Hp. congruence.
Qed.

Example proxyPath_of_chat :
  ApiClient.proxyPath "/12/chat" = "/api/proxy/12/chat" /\
  ApiClient.proxyPath "tasks" = "/api/proxy/tasks" /\
  ApiClient.proxyPath "/api/proxy" = "/api/proxy/api/proxy".
Proof. repeat split. Qed.

Section TaskListUpdates.

Import TasksClient.

Lemma sameId_refl (a : TaskId) : sameId a a = true.
Proof. destruct a; simpl; [apply Z.eqb_refl | apply String.eqb_refl]. Qed.

Lemma sameId_eq (a b : TaskId) : sameId a b = true -> a = b.
Proof.
  destruct a, b; simpl; try discriminate; intros H.
  - apply Z.eqb_eq in H. now subst.
  - apply String.eqb_eq in H. now subst.
Qed.

Lemma replaceTask_fresh (taskId : TaskId) (updated : Task) (tasks : list Task) :
  fresh taskId tasks -> replaceTask taskId updated tasks = tasks.
Proof.
  unfold replaceTask. induction 1 as [|t l Ht _ IH]; simpl; [reflexivity|].
  now rewrite Ht, IH.
Qed.

Lemma removeTask_fresh (taskId : TaskId) (tasks : list Task) :
  fresh taskId tasks -> removeTask taskId tasks = tasks.
Proof.
  unfold removeTask. induction 1 as [|t l Ht _ IH]; simpl; [reflexivity|].
  now rewrite Ht, IH.
Qed.

(** X18: creating a task, when no task of the list has the temporary
    id.  If the request succeeds the optimistic entry, and nothing else,
    is replaced by the created task; if it fails the list is back to
    what it was. *)
Theorem createTask_settles (optimistic created : Task) (prev : list Task) :
  fresh (id optimistic) prev ->
  replaceTask (id optimistic) created (addOptimistic optimistic prev)
  = created :: prev /\
  removeTask (id optimistic) (addOptimistic optimistic prev) = prev.
Proof.
  intros Hf. unfold addOptimistic. split.
  - unfold replaceTask. simpl. rewrite sameId_refl. f_equal.
    now apply replaceTask_fresh.
  - unfold removeTask. simpl. rewrite sameId_refl. simpl.
    now apply removeTask_fresh.
Qed.

(** X19: two optimistic entries that carry the same temporary id (two
    submissions within one millisecond) are not told apart: when the
    request of either fails, both entries are removed, and when it
    succeeds, both are replaced by the same created task. *)
Theorem createTask_same_temporary_id
    (first second created : Task) (prev : list Task) :
  sameId (id second) (id first) = true ->
  fresh (id first) prev ->
  removeTask (id first) (addOptimistic second (addOptimistic first prev))
  = prev /\
  replaceTask (id first) created
              (addOptimistic second (addOptimistic first prev))
  = created :: created :: prev.
Proof.
  intros Hsame Hf. unfold addOptimistic. split.
  - unfold removeTask. simpl. rewrite Hsame, sameId_refl. simpl.
    now apply removeTask_fresh.
  - unfold replaceTask. simpl. rewrite Hsame, sameId_refl. do 2 f_equal.
    now apply replaceTask_fresh.
Qed.

(** X20: marking a task completed or not keeps every task in place
    with its id; the tasks with that id get the flag and change in
    nothing else, the others are untouched; and of two marks on the same
    id the later one wins. *)
Theorem markCompleted_keeps_the_list
    (taskId : TaskId) (flag earlier : bool) (tasks : list Task) :
  map id (markCompleted taskId flag tasks) = map id tasks /\
  map title (markCompleted taskId flag tasks) = map title tasks /\
  map completed (markCompleted taskId flag tasks)
  = map (fun t => if sameId (id t) taskId then flag else completed t) tasks /\
  (fresh taskId tasks -> markCompleted taskId flag tasks = tasks) /\
  markCompleted taskId flag (markCompleted taskId earlier tasks)
  = markCompleted taskId flag tasks.
Proof.
  unfold markCompleted. repeat split.
  - rewrite map_map. apply map_ext. intros t.
    now destruct (sameId (id t) taskId).
  - rewrite map_map. apply map_ext. intros t.
    now destruct (sameId (id t) taskId).
  - rewrite map_map. apply map_ext. intros t.
    now destruct (sameId (id t) taskId).
  - induction 1 as [|t l Ht _ IH]; simpl; [reflexivity|].
    now rewrite Ht, IH.
  - rewrite map_map. apply map_ext. intros t.
    destruct (sameId (id t) taskId) eqn:E; simpl; now rewrite E.
Qed.

End TaskListUpdates.

Lemma createTask_settles_witness :
  TasksClient.replaceTask (TasksClient.StrId "tmp-1")
    (TasksClient.storedTask 5 "Pay rent" false)
    (TasksClient.addOptimistic (TasksClient.optimisticTask "tmp-1" "Pay rent")
       [ TasksClient.storedTask 4 "Call home" true ])
  = [ TasksClient.storedTask 5 "Pay rent" false;
      TasksClient.storedTask 4 "Call home" true ] /\
  TasksClient.removeTask (TasksClient.StrId "tmp-1")
    (TasksClient.addOptimistic (TasksClient.optimisticTask "tmp-1" "Pay rent")
       [ TasksClient.storedTask 4 "Call home" true ])
  = [ TasksClient.storedTask 4 "Call home" true ].
Proof.
  apply (createTask_settles
           (TasksClient.optimisticTask "tmp-1" "Pay rent")
           (TasksClient.storedTask 5 "Pay rent" false)
           [ TasksClient.storedTask 4 "Call home" true ]).
  repeat constructor.
Defined.

Lemma createTask_same_temporary_id_witness :
  TasksClient.removeTask (TasksClient.StrId "tmp-1")
    (TasksClient.addOptimistic (TasksClient.optimisticTask "tmp-1" "Buy milk")
       (TasksClient.addOptimistic (TasksClient.optimisticTask "tmp-1" "Pay rent")
          [ TasksClient.storedTask 4 "Call home" true ]))
  = [ TasksClient.storedTask 4 "Call home" true ] /\
  TasksClient.replaceTask (TasksClient.StrId "tmp-1")
    (TasksClient.storedTask 5 "Pay rent" false)
    (TasksClient.addOptimistic (TasksClient.optimisticTask "tmp-1" "Buy milk")
       (TasksClient.addOptimistic (TasksClient.optimisticTask "tmp-1" "Pay rent")
          [ TasksClient.storedTask 4 "Call home" true ]))
  = [ TasksClient.storedTask 5 "Pay rent" false;
      TasksClient.storedTask 5 "Pay rent" false;
      TasksClient.storedTask 4 "Call home" true ].
Proof.
  apply (createTask_same_temporary_id
           (TasksClient.optimisticTask "tmp-1" "Pay rent")
           (TasksClient.optimisticTask "tmp-1" "Buy milk")
           (TasksClient.storedTask 5 "Pay rent" false)
           [ TasksClient.storedTask 4 "Call home" true ]).
  - reflexivity.
  - repeat constructor.
Defined.

(** X21: the origin is the first of [API_BASE_URL] and
    [NEXT_PUBLIC_API_BASE_URL] that is set and not empty; an empty
    variable counts as unset, so the origin, when there is one, is never
    the empty string, and there is none exactly when both are unset or
    empty. *)
Theorem baseUrl_first_non_empty (w : World) :
  (forall u, API_BASE_URL (env w) = Some u -> u <> "" -> baseUrl w = Some u) /\
  (Js.truthyStr (API_BASE_URL (env w)) = false ->
   forall u, NEXT_PUBLIC_API_BASE_URL (env w) = Some u -> u <> "" ->
             baseUrl w = Some u) /\
  (forall u, baseUrl w = Some u -> u <> "") /\
  (baseUrl w = None <->
   Js.truthyStr (API_BASE_URL (env w)) = false /\
   Js.truthyStr (NEXT_PUBLIC_API_BASE_URL (env w)) = false).
Proof.
  unfold baseUrl, Js.truthyStr.
  destruct (API_BASE_URL (env w)) as [a|];
    destruct (NEXT_PUBLIC_API_BASE_URL (env w)) as [b|];
    try destruct (String.eqb_spec a "");
    try destruct (String.eqb_spec b "");
    subst; simpl;
    repeat split; intros; try congruence; try discriminate;
    match goal with H : _ /\ _ |- _ => destruct H; discriminate end.
Qed.

(** * Statuses the [Response] constructor refuses *)

(** X22: when the backend's status is one the [Response] constructor
    refuses (204, 205 or 304, or a status outside 200..599) and the
    handler is about to pass it on (the answer is [ok], or the path has
    no [/chat]), the constructor's error is caught by the outer [catch]:
    the caller gets status 500 with the proxy error object.  A 204
    answer to a [DELETE] is such a case. *)
Theorem refused_status_is_proxy_error
    (JSON_parse : string -> option JsonValue) (w : World) (req : Request)
    (apiBaseUrl : string) (res : BackendResponse) :
  baseUrl w = Some apiBaseUrl ->
  network w (apiBaseUrl ++ rewrittenPath req)
            (outboundInit req (sentHeaders w (rewrittenPath req)))
    = Resolves res ->
  acceptsStatus (res_status res) = false ->
  res_ok res = true \/ includes (rewrittenPath req) "/chat" = false ->
  outcome (handler JSON_parse w req)
  = Returned (NextResponse_json
                (JObj [ ("message", JStr "Proxy error occurred");
                        ("error", JStr (statusErrorMessage w (res_status res))) ])
                500).
Proof.
  intros Hb Hn Hacc Hcase.
  rewrite (run_fetch_resolves JSON_parse w req apiBaseUrl res Hb Hn).
  unfold outcome, fst.
  destruct (res_ok res) eqn:Hok; cbv [negb].
  - unfold onBackendSuccess, construct.
    destruct (includes _ "application/json");
      cbn [statusOf]; now rewrite Hacc.
  - destruct Hcase as [Hcase|Hchat]; [discriminate Hcase|].
    unfold onBackendError, construct. rewrite Hchat.
    cbn [statusOf]. now rewrite Hacc.
Qed.

Lemma refused_status_is_proxy_error_witness :
  outcome (handler (parseTable []) (liveWorld (Some "abc") 204 "")
                   (sampleRequest "DELETE" ["tasks"; "3"]))
  = Returned (NextResponse_json
                (JObj [ ("message", JStr "Proxy error occurred");
                        ("error", JStr (statusErrorMessage
                                          (liveWorld (Some "abc") 204 "") 204)) ])
                500).
Proof.
  apply (refused_status_is_proxy_error (parseTable [])
           (liveWorld (Some "abc") 204 "")
           (sampleRequest "DELETE" ["tasks"; "3"])
           "http://backend:8000"
           {| res_status := 204;
              res_content_type := Some "application/json";
              res_text := "" |});
    [reflexivity | reflexivity | reflexivity | left; reflexivity].
Defined.
